(** * The per-asset training and prediction pipeline of
      [Algorithmic Trading/strategyCatherineHerrera.ipynb]

    A shallow embedding of the notebook's own functions, [get_features],
    [get_target_classes], [get_model], [train_model] and [predict_weights],
    together with the parts of xarray, numpy and scikit-learn they lean on.

    - Floating-point numbers are extended rationals: NaN, the two infinities
      and exact finite values.  Rounding and signed zeros are not modelled.
    - The technical-indicator library (qnt.ta) is not part of the
      repository: it is a record of functions, [ta_lib], that every
      definition takes as a parameter.
    - The regressor (scikit-learn's KNeighborsRegressor) keeps its training
      set and predicts the mean of the labels of the neighbours it selects;
      which neighbours are the nearest, and whether a call raises, is left
      to an environment, [sklearn_env].
    - Exceptions and the log are threaded through a small monad.  The calls
      that can raise are the regressor's [fit] and [predict]; an interrupt
      that arrives anywhere else, while the features of an asset are
      computed, say, is not modelled. *)

From Stdlib Require Import ZArith QArith Qminmax List Lia.
From stdpp Require Import base gmap list strings.

Local Open Scope string_scope.

(** ** Numbers *)

(** A float64 cell: missing (NaN), infinite, or a finite value. *)
Inductive float : Type :=
  | NaN
  | NegInf
  | PosInf
  | Fin (q : Q).

Definition isnan (x : float) : bool :=
  match x with NaN => true | _ => false end.

Definition Qlt_bool (a b : Q) : bool := negb (Qle_bool b a).

(** [x > y] on floats: false as soon as one side is NaN. *)
Definition fgt (x y : float) : bool :=
  match x, y with
  | NaN, _ | _, NaN => false
  | _, PosInf => false
  | PosInf, _ => true
  | NegInf, _ => false
  | Fin _, NegInf => true
  | Fin a, Fin b => Qlt_bool b a
  end.

(** [x / y] with numpy's silent division by zero ([np.seterr(divide="ignore")]). *)
Definition fdiv (x y : float) : float :=
  match x, y with
  | NaN, _ | _, NaN => NaN
  | Fin a, Fin b =>
      if Qeq_bool b 0
      then (if Qeq_bool a 0 then NaN else if Qlt_bool 0 a then PosInf else NegInf)
      else Fin (Qred (a / b))
  | Fin _, _ => Fin 0
  | PosInf, Fin b => if Qlt_bool b 0 then NegInf else PosInf
  | NegInf, Fin b => if Qlt_bool b 0 then PosInf else NegInf
  | _, _ => NaN
  end.

(** A cell of the feature tensor.  The logarithm of a positive rational is
    kept as [LogOf q]: it stands for the float nearest to [ln q]. *)
Inductive cell : Type :=
  | Num (x : float)
  | LogOf (q : Q).

(** [np.log]: minus infinity at zero, NaN below zero. *)
Definition np_log (x : float) : cell :=
  match x with
  | Fin q =>
      if Qlt_bool 0 q then LogOf q
      else if Qeq_bool q 0 then Num NegInf else Num NaN
  | PosInf => Num PosInf
  | NegInf | NaN => Num NaN
  end.

(** What [dropna] calls missing.  An integer array has no missing value. *)
Class IsNull (A : Type) := isnull : A -> bool.
#[global] Instance float_isnull : IsNull float := isnan.
#[global] Instance cell_isnull : IsNull cell :=
  fun c => match c with Num x => isnan x | LogOf _ => false end.
#[global] Instance Z_isnull : IsNull Z := fun _ => false.

(** ** Labelled arrays *)

Definition asset := string.

(** A three-dimensional xarray.DataArray with dimensions (time, field,
    asset), stored asset by asset: the series of an asset has one entry per
    time step, in time order, and an entry gives the value of each field.
    The time coordinate of an entry is its position. *)
Record DataArray (A : Type) : Type := mkDataArray {
  field_coords : list string;
  asset_coords : list asset;
  series : asset -> list (string -> A)
}.
Arguments mkDataArray {A} _ _ _.
Arguments field_coords {A} _.
Arguments asset_coords {A} _.
Arguments series {A} _ _.

(** The number of time steps of an asset. *)
Definition ntime {A} (d : DataArray A) (a : asset) : nat := length (series d a).

(** [d.sel(field=f)]: for each asset, the series of field [f] over time. *)
Definition sel {A} (d : DataArray A) (f : string) : asset -> list A :=
  fun a => map (fun entry => entry f) (series d a).

(** [d.sel(asset=a)] read as a table: one row per time step, one column per
    field coordinate. *)
Definition sel_asset {A} (d : DataArray A) (a : asset) : list (list A) :=
  map (fun entry => map entry (field_coords d)) (series d a).

(** The cell at (time, field, asset), if the time exists. *)
Definition cell_at {A} (d : DataArray A) (t : nat) (f : string) (a : asset)
    : option A :=
  (fun entry => entry f) <$> series d a !! t.

(** The input restricted to the times [<= t]. *)
Definition truncate {A} (d : DataArray A) (t : nat) : DataArray A :=
  mkDataArray (field_coords d) (asset_coords d) (fun a => take (S t) (series d a)).

(** [x.ffill("time")]: a missing value takes the last value seen before it. *)
Fixpoint ffill_from (last : float) (s : list float) : list float :=
  match s with
  | [] => []
  | x :: r => let y := if isnan x then last else x in y :: ffill_from y r
  end.
Definition ffill (s : list float) : list float := ffill_from NaN s.

(** [x.bfill("time")]: a missing value takes the next value present after it. *)
Fixpoint bfill (s : list float) : list float :=
  match s with
  | [] => []
  | x :: r => let r' := bfill r in (if isnan x then hd NaN r' else x) :: r'
  end.

Definition fillna (v : float) (s : list float) : list float :=
  map (fun x => if isnan x then v else x) s.

(** [xr.concat(arrays, pd.Index(names, name="field"))] followed by
    [.transpose("time", "field", "asset")], for two-dimensional arrays over
    the time steps of the input: cell (t, f, a) is the value at time [t] of
    the array named [f].  A name outside [names], or a time an array does
    not reach, reads as NaN. *)
Fixpoint channel (names : list string) (columns : list (list cell))
    (f : string) : option (list cell) :=
  match names, columns with
  | n :: names', c :: columns' =>
      if String.eqb n f then Some c else channel names' columns' f
  | _, _ => None
  end.

Definition xr_concat (n : asset -> nat) (assets : list asset)
    (arrays : list (asset -> list cell)) (names : list string) : DataArray cell :=
  mkDataArray names assets
    (fun a =>
       let columns := map (fun array => array a) arrays in
       map (fun t f =>
              match channel names columns f with
              | Some c => nth t c (Num NaN)
              | None => Num NaN
              end)
           (seq 0 (n a))).

(** ** The technical-indicator library *)

(** The functions of qnt.ta the notebook calls, on one series (the library's
    adapter applies them asset by asset, and field by field on a
    three-dimensional input). *)
Record ta_lib : Type := mkTaLib {
  lwma : list float -> nat -> list float;
  roc : list float -> nat -> list float;
  macd : list float -> nat -> nat -> nat -> list float * list float * list float;
  tr : list float -> list float -> list float -> list float;
  stochastic : list float -> list float -> list float -> nat -> list float * list float;
  rsi : list float -> nat -> list float;
  shift : list float -> Z -> list float
}.

(** Modelled from the spec: the default period of the library's [rsi], whose
    declaration is not under src/; the spec calls the channel the standard
    14-period relative strength index. *)
Definition rsi_default_periods : nat := 14.

Section Pipeline.

Variable lib : ta_lib.

(** ** [get_features] *)

Definition feature_names : list string :=
  ["trend"; "macd"; "volatility"; "stochastic_d"; "rsi"; "price"; "momentum"].

(** The first call [macd = qnta.macd(data.sel(field="close"))] is left out:
    its result is never used. *)
Definition get_features (data : DataArray float) : DataArray cell :=
  let close := sel data "close" in
  (* trend *)
  let trend := fun a => roc lib (lwma lib (close a) 60) 1 in
  (* moving average convergence divergence, on every field of data *)
  let macd2 := fun f a => macd lib (sel data f a) 12 26 9 in
  let macd2_signal := fun f a => snd (fst (macd2 f a)) in
  (* volatility *)
  let volatility := fun a => tr lib (sel data "high" a) (sel data "low" a) (close a) in
  let volatility := fun a => zip_with fdiv (volatility a) (close a) in
  let volatility := fun a => lwma lib (volatility a) 14 in
  (* the stochastic oscillator *)
  let d := fun a =>
    snd (stochastic lib (sel data "high" a) (sel data "low" a) (close a) 14) in
  (* the relative strength index *)
  let rsi := fun a => rsi lib (close a) rsi_default_periods in
  (* the logarithm of the closing price *)
  let price := fun a => fillna (Fin 0) (bfill (ffill (close a))) in
  let price := fun a => map np_log (price a) in
  (* momentum *)
  let momentum := fun a => roc lib (close a) 14 in
  xr_concat (ntime data) (asset_coords data)
    [ (fun a => map Num (trend a)); (fun a => map Num (macd2_signal "close" a));
      (fun a => map Num (volatility a)); (fun a => map Num (d a));
      (fun a => map Num (rsi a)); price;
      (fun a => map Num (momentum a)) ]
    feature_names.

(** ** [get_target_classes] *)

(** [xr.where(future > current, x, y)] over the time coordinate of
    [current]: an integer array when [x] and [y] are integers. *)
Definition xr_where_gt (future current : list float) (x y : Z) : list Z :=
  imap (fun t cur => if fgt (nth t future NaN) cur then x else y) current.

Definition get_target_classes (data : DataArray float) : asset -> list Z :=
  let price_current := sel data "close" in
  let price_future := fun a => shift lib (price_current a) (-1) in
  let class_positive := 1%Z in (* prices goes up *)
  let class_negative := 0%Z in (* price goes down *)
  let target_price_up :=
    fun a => xr_where_gt (price_future a) (price_current a)
               class_positive class_negative in
  target_price_up.

End Pipeline.

(** ** Exceptions and the log *)

(** Python's exceptions, as far as the handlers of the notebook tell them
    apart: the user's interrupt, which is not an [Exception], and the rest. *)
Inductive exn : Type :=
  | KeyboardInterrupt
  | Exception (what : string).

Inductive outcome (A : Type) : Type :=
  | Ret (x : A)
  | Raise (e : exn).
Arguments Ret {A} _.
Arguments Raise {A} _.

(** What [logging.exception(msg)] records: the message and the exception
    being handled. *)
Definition log_record : Type := string * exn.

(** A computation that may raise and that appends to the log. *)
Definition M (A : Type) : Type := list log_record -> outcome A * list log_record.

Definition mret {A} (x : A) : M A := fun l => (Ret x, l).

Definition mbind {A B} (m : M A) (k : A -> M B) : M B :=
  fun l =>
    match m l with
    | (Ret x, l') => k x l'
    | (Raise e, l') => (Raise e, l')
    end.

Definition raise {A} (e : exn) : M A := fun l => (Raise e, l).

Definition logging_exception (msg : string) (e : exn) : M unit :=
  fun l => (Ret tt, (l ++ [(msg, e)])%list).

Notation "'let!' x ':=' m 'in' k" := (mbind m (fun x => k))
  (at level 10, x name, m at level 100, k at level 200).
Notation "'do!' m 'in' k" := (mbind m (fun _ => k))
  (at level 10, m at level 100, k at level 200).

(** The classes an [except] clause names. *)
Definition except_all (e : exn) : bool := true.
Definition except_KeyboardInterrupt (e : exn) : bool :=
  match e with KeyboardInterrupt => true | Exception _ => false end.
Definition except_Exception (e : exn) : bool :=
  match e with KeyboardInterrupt => false | Exception _ => true end.

(** [try: body  except C1: h1  except C2: h2 ...]: the first clause whose
    class matches handles the exception; with none, it propagates. *)
Fixpoint handle {A} (clauses : list ((exn -> bool) * (exn -> M A))) (e : exn) : M A :=
  match clauses with
  | [] => raise e
  | (class, handler) :: rest => if class e then handler e else handle rest e
  end.

Definition try_except {A} (body : M A)
    (clauses : list ((exn -> bool) * (exn -> M A))) : M A :=
  fun l =>
    match body l with
    | (Ret x, l') => (Ret x, l')
    | (Raise e, l') => handle clauses e l'
    end.

(** [for x in xs: s = body(x, s)]; an exception leaving the body ends the loop. *)
Fixpoint for_each {A S} (xs : list A) (body : A -> S -> M S) (s : S) : M S :=
  match xs with
  | [] => mret s
  | x :: rest => let! s' := body x s in for_each rest body s'
  end.

(** ** Missing rows and alignment *)

(** A row is missing as soon as one of its cells is ([how="any"]). *)
#[global] Instance list_isnull {A} `{IsNull A} : IsNull (list A) :=
  fun r => existsb isnull r.

(** [x.dropna("time", "any")]: the entries that are not missing, each with
    its time coordinate. *)
Definition dropna {A} `{IsNull A} (x : list A) : list (nat * A) :=
  List.filter (fun p => negb (isnull (snd p))) (imap pair x).

Definition time_values {A} (x : list (nat * A)) : list nat := map fst x.
Definition values {A} (x : list (nat * A)) : list A := map snd x.

Definition has_time {A} (x : list (nat * A)) (t : nat) : bool :=
  existsb (Nat.eqb t) (time_values x).

(** [xr.align(x, y, join="inner")]: both restricted to the times they share. *)
Definition align_inner {A B} (x : list (nat * A)) (y : list (nat * B))
    : list (nat * A) * list (nat * B) :=
  (List.filter (fun p => has_time y (fst p)) x,
   List.filter (fun p => has_time x (fst p)) y).

(** ** The regressor *)

Record KNeighborsRegressor : Type := mkKNN {
  n_neighbors : nat;
  fit_X : list (list cell);
  fit_y : list Z
}.

(** What the notebook does not decide about scikit-learn: whether the call
    made while an asset is processed raises (a validation error, or the
    user's interrupt arriving during the call), and which training samples
    are the nearest to a query row. *)
Record sklearn_env : Type := mkSklearnEnv {
  fit_raises : asset -> list (list cell) -> list Z -> option exn;
  predict_raises : asset -> KNeighborsRegressor -> list (list cell) -> option exn;
  kneighbors : list (list cell) -> list cell -> nat -> list nat
}.

Definition get_model (n_neighbors : nat) : KNeighborsRegressor :=
  let model := mkKNN n_neighbors [] [] in
  model.

(** [np.mean] of the neighbours' labels. *)
Definition mean_labels (ys : list Z) : float :=
  fdiv (Fin (inject_Z (foldr Z.add 0%Z ys))) (Fin (inject_Z (Z.of_nat (length ys)))).

Section Sklearn.

Variable env : sklearn_env.

(** [model.fit(X, y)] during the processing of [asset_name]. *)
Definition fit (asset_name : asset) (model : KNeighborsRegressor)
    (X : list (list cell)) (y : list Z) : M KNeighborsRegressor :=
  match fit_raises env asset_name X y with
  | Some e => raise e
  | None => mret (mkKNN (n_neighbors model) X y)
  end.

Definition predict_row (model : KNeighborsRegressor) (x : list cell) : option float :=
  let neigh_ind := kneighbors env (fit_X model) x (n_neighbors model) in
  mean_labels <$> mapM (fun i => fit_y model !! i) neigh_ind.

(** [model.predict(X)] during the processing of [asset_name]: one value per row. *)
Definition predict (asset_name : asset) (model : KNeighborsRegressor)
    (X : list (list cell)) : M (list float) :=
  match predict_raises env asset_name model X with
  | Some e => raise e
  | None =>
      if (length (fit_X model) <? n_neighbors model)%nat
      then raise (Exception "ValueError: Expected n_neighbors <= n_samples_fit")
      else match mapM (predict_row model) X with
           | Some ys => mret ys
           | None => raise (Exception "IndexError")
           end
  end.

End Sklearn.

(** ** The weights *)

(** A two-dimensional array over (time, asset): one series per asset
    coordinate. *)
Definition zeros_like (n : asset -> nat) (assets : list asset)
    : gmap asset (list float) :=
  list_to_map (map (fun a => (a, replicate (n a) (Fin 0))) assets).

Definition set_times (row : list float) (times : list nat) (vals : list float)
    : list float :=
  foldl (fun r tv => <[fst tv := snd tv]> r) row (zip times vals).

(** [weights.loc[dict(asset=a, time=times)] = vals]: a coordinate that does
    not exist, or a value array of another shape, raises. *)
Definition loc_assign (weights : gmap asset (list float)) (a : asset)
    (times : list nat) (vals : list float) : M (gmap asset (list float)) :=
  match weights !! a with
  | None => raise (Exception "KeyError")
  | Some row =>
      if negb (forallb (fun t => t <? length row)%nat times)
      then raise (Exception "KeyError")
      else if negb (length times =? length vals)%nat
      then raise (Exception "ValueError")
      else mret (<[a := set_times row times vals]> weights)
  end.

(** The entry of a two-dimensional array at (time, asset). *)
Definition entry (weights : gmap asset (list float)) (t : nat) (a : asset)
    : option float :=
  weights !! a ≫= (fun row => row !! t).

Section Strategy.

Variable lib : ta_lib.
Variable env : sklearn_env.

(** ** [train_model] *)

(** The body of the loop of [train_model] for one asset. *)
Definition train_asset (features_all : DataArray cell) (target_all : asset -> list Z)
    (asset_name : asset) (models : gmap asset KNeighborsRegressor)
    : M (gmap asset KNeighborsRegressor) :=
  (* drop missing values *)
  let target_cur := dropna (target_all asset_name) in
  let features_cur := dropna (sel_asset features_all asset_name) in
  let '(target_for_learn_df, feature_for_learn_df) :=
    align_inner target_cur features_cur in
  if (length (time_values features_cur) <? 10)%nat
  then mret models (* continue *)
  else
    let model := get_model 5 in
    try_except
      (let! model := fit env asset_name model
                       (values feature_for_learn_df) (values target_for_learn_df) in
       mret (<[asset_name := model]> models))
      [ (except_all,
         fun e => do! logging_exception "model training failed" e in mret models) ].

Definition train_model (data : DataArray float) : M (gmap asset KNeighborsRegressor) :=
  let asset_name_all := asset_coords data in
  let features_all := get_features lib data in
  let target_all := get_target_classes lib data in
  let models := ∅ in
  for_each asset_name_all (train_asset features_all target_all) models.

(** ** The global training loop

    The first part of the notebook trains on the whole history at the top
    level of a cell, from the features and targets computed before
    ([my_features], [my_targetclass]).  Its loop is that of [train_model],
    with [except Exception] as its handler. *)
Definition train_asset_global (my_features : DataArray cell)
    (my_targetclass : asset -> list Z)
    (asset_name : asset) (models : gmap asset KNeighborsRegressor)
    : M (gmap asset KNeighborsRegressor) :=
  (* Drop missing values *)
  let target_cur := dropna (my_targetclass asset_name) in
  let features_cur := dropna (sel_asset my_features asset_name) in
  (* Align features and targets *)
  let '(target_for_learn_df, feature_for_learn_df) :=
    align_inner target_cur features_cur in
  if (length (time_values features_cur) <? 10)%nat
  then mret models (* Not enough points for training: continue *)
  else
    let model := get_model 5 in
    try_except
      (let! model := fit env asset_name model
                       (values feature_for_learn_df) (values target_for_learn_df) in
       mret (<[asset_name := model]> models))
      [ (except_Exception,
         fun e =>
           do! logging_exception ("Model training failed for asset: " ++ asset_name) e in
           mret models) ].

Definition global_training (stock_data : DataArray float)
    : M (gmap asset KNeighborsRegressor) :=
  let my_features := get_features lib stock_data in
  let my_targetclass := get_target_classes lib stock_data in
  let asset_name_all := asset_coords stock_data in
  let models := ∅ in
  for_each asset_name_all (train_asset_global my_features my_targetclass) models.

(** ** [predict_weights] *)

(** The body of the loop of [predict_weights] for one asset. *)
Definition predict_asset (models : gmap asset KNeighborsRegressor)
    (data : DataArray float) (asset_name : asset)
    (weights : gmap asset (list float)) : M (gmap asset (list float)) :=
  match models !! asset_name with
  | Some model =>
      let features_all := get_features lib data in
      let features_cur := dropna (sel_asset features_all asset_name) in
      if (length (time_values features_cur) <? 1)%nat
      then mret weights (* continue *)
      else
        try_except
          (let! predicted := predict env asset_name model (values features_cur) in
           loc_assign weights asset_name (time_values features_cur) predicted)
          [ (except_KeyboardInterrupt, fun e => raise e);
            (except_all,
             fun e => do! logging_exception "model prediction failed" e in
                      mret weights) ]
  | None => mret weights
  end.

Definition predict_weights (models : gmap asset KNeighborsRegressor)
    (data : DataArray float) : M (gmap asset (list float)) :=
  let asset_name_all := asset_coords data in
  let weights := zeros_like (ntime data) asset_name_all in
  for_each asset_name_all (predict_asset models data) weights.

End Strategy.

(** ** A reference indicator library and environment

    Windowed versions of the indicators, positional [shift], and an
    environment in which no call raises.  They serve as the concrete
    library on which the statements below are run; the statements
    themselves hold for every library that meets the stated contracts. *)
Module Ref.

Definition lift2 (op : Q -> Q -> Q) (x y : float) : float :=
  match x, y with
  | Fin a, Fin b => Fin (Qred (op a b))
  | _, _ => NaN
  end.
Definition fadd := lift2 Qplus.
Definition fsub := lift2 Qminus.
Definition fmul := lift2 Qmult.
Definition fmax := lift2 Qmax.
Definition fmin := lift2 Qmin.
Definition fabs (x : float) : float := fmax x (fsub (Fin 0) x).
Definition fsum (l : list float) : float := foldr fadd (Fin 0) l.
Definition of_nat (n : nat) : float := Fin (inject_Z (Z.of_nat n)).

(** The last [n] entries up to time [t]. *)
Definition window {A} (n : nat) (s : list A) (t : nat) : list A :=
  drop (S t - n) (take (S t) s).

(** The value at time [t] is [g] of the window ending at [t]; NaN while the
    window is not full. *)
Definition rolling {A} (n : nat) (g : list A -> float) (s : list A) : list float :=
  map (fun t => if (S t <? n)%nat then NaN else g (window n s t)) (seq 0 (length s)).

Definition lwma (s : list float) (n : nat) : list float :=
  rolling n
    (fun w => fdiv (fsum (imap (fun i x => fmul (of_nat (S i)) x) w))
                   (of_nat (n * (n + 1) / 2)))
    s.

Definition roc (s : list float) (n : nat) : list float :=
  rolling (S n)
    (fun w => let x0 := hd NaN w in
              fmul (of_nat 100) (fdiv (fsub (List.last w NaN) x0) x0))
    s.

Definition macd (s : list float) (fast slow signal : nat)
    : list float * list float * list float :=
  let line := zip_with fsub (lwma s fast) (lwma s slow) in
  let sig := lwma line signal in
  (line, sig, zip_with fsub line sig).

Definition tr (high low close : list float) : list float :=
  rolling 2
    (fun w =>
       match w with
       | [(_, (_, prev)); (h, (l, _))] =>
           fmax (fsub h l) (fmax (fabs (fsub h prev)) (fabs (fsub l prev)))
       | _ => NaN
       end)
    (zip high (zip low close)).

Definition highest (w : list float) : float :=
  match w with [] => NaN | x :: r => foldr fmax x r end.
Definition lowest (w : list float) : float :=
  match w with [] => NaN | x :: r => foldr fmin x r end.

Definition stochastic (high low close : list float) (n : nat)
    : list float * list float :=
  let k :=
    rolling n
      (fun w =>
         let hi := highest (map fst w) in
         let lo := lowest (map (fun b => fst (snd b)) w) in
         let c := snd (snd (List.last w (NaN, (NaN, NaN)))) in
         fmul (of_nat 100) (fdiv (fsub c lo) (fsub hi lo)))
      (zip high (zip low close)) in
  let d := rolling 3 (fun w => fdiv (fsum w) (of_nat 3)) k in
  (k, d).

Definition rsi (s : list float) (n : nat) : list float :=
  rolling (S n)
    (fun w =>
       let ds := zip_with fsub (tl w) w in
       let up := fsum (map (fmax (Fin 0)) ds) in
       let down := fsum (map (fun d => fmax (Fin 0) (fsub (Fin 0) d)) ds) in
       fmul (of_nat 100) (fdiv up (fadd up down)))
    s.

(** Positional shift: forward for a positive number of periods, backward
    for a negative one, NaN where nothing is shifted in. *)
Definition shift (s : list float) (periods : Z) : list float :=
  let n := length s in
  if (periods <? 0)%Z
  then let k := Z.to_nat (- periods) in drop k s ++ replicate (Nat.min k n) NaN
  else let k := Z.to_nat periods in replicate (Nat.min k n) NaN ++ take (n - k) s.

Definition ta : ta_lib := mkTaLib lwma roc macd tr stochastic rsi shift.

(** No call raises; the neighbours are the first training samples. *)
Definition quiet : sklearn_env :=
  mkSklearnEnv (fun _ _ _ => None) (fun _ _ _ => None) (fun _ _ k => seq 0 k).

(** As [quiet], but the call to [fit] made for asset [a] raises [e]. *)
Definition fit_fails (a : asset) (e : exn) : sklearn_env :=
  mkSklearnEnv (fun b _ _ => if String.eqb a b then Some e else None)
               (fun _ _ _ => None) (fun _ _ k => seq 0 k).

(** As [quiet], but the call to [predict] made for asset [a] raises [e]. *)
Definition predict_fails (a : asset) (e : exn) : sklearn_env :=
  mkSklearnEnv (fun _ _ _ => None)
               (fun b _ _ => if String.eqb a b then Some e else None)
               (fun _ _ k => seq 0 k).

(** A price series over [n] days from the closing prices of each asset:
    the high is one above the close, the low one below. *)
Definition of_closes (n : nat) (assets : list asset) (close : asset -> list float)
    : DataArray float :=
  mkDataArray ["open"; "high"; "low"; "close"] assets
    (fun a =>
       let closes := close a in
       map (fun t f =>
              let c := nth t closes NaN in
              if String.eqb f "high" then fadd c (Fin 1)
              else if String.eqb f "low" then fsub c (Fin 1)
              else c)
           (seq 0 n)).

Definition prices (l : list Z) : list float := map (fun z => Fin (inject_Z z)) l.

(** The close sequence of the label example. *)
Definition five_closes : DataArray float :=
  of_closes 5 ["A"] (fun _ => prices [10; 12; 11; 11; 13]%Z).

(** A close that is missing on the first day. *)
Definition late_listing : DataArray float :=
  of_closes 2 ["A"] (fun _ => [NaN; Fin 5]).

(** Five assets over [n] days, each oscillating around its own level. *)
Definition wave (level step : Z) (n : nat) : list float :=
  prices (map (fun t => (level + (Z.of_nat t * step) mod 7 + Z.of_nat t / 9)%Z) (seq 0 n)).

Definition five_assets_close (a : asset) : list float :=
  if String.eqb a "A" then wave 50 3 72
  else if String.eqb a "B" then wave 80 2 72
  else if String.eqb a "C" then wave 30 5 72
  else if String.eqb a "D" then wave 120 4 72
  else wave 25 6 72.

Definition five_assets : DataArray float :=
  of_closes 72 ["A"; "B"; "C"; "D"; "E"] five_assets_close.

(** Asset A of [five_assets], one day later: the same 72 days and the next. *)
Definition asset_A_next_day : DataArray float :=
  of_closes 73 ["A"] (fun _ => wave 50 3 73).

(** [five_assets] with another opening price for asset A and no data at all
    for the other assets. *)
Definition only_asset_A : DataArray float :=
  mkDataArray ["open"; "high"; "low"; "close"] ["A"]
    (fun a =>
       if String.eqb a "A"
       then map (fun entry f => if String.eqb f "open" then Fin 1 else entry f)
                (series five_assets "A")
       else []).

(** A rolling mean over full windows without missing values. *)
Definition rolling_mean (s : list float) (n : nat) : list float :=
  rolling n (fun w => fdiv (fsum w) (of_nat n)) s.

(** An asset without any close, over four days. *)
Definition never_listed : DataArray float :=
  of_closes 4 ["A"] (fun _ => [NaN; NaN; NaN; NaN]).

(** A close that appears on the third day. *)
Definition listed_on_day_2 : DataArray float :=
  of_closes 4 ["A"] (fun _ => [NaN; NaN; Fin 8; Fin 9]).

(** The mapping a run of [train_model] returned. *)
Definition models_of (run : outcome (gmap asset KNeighborsRegressor) * list log_record)
    : gmap asset KNeighborsRegressor :=
  match fst run with Ret models => models | Raise _ => ∅ end.

(** The models trained on [five_assets] when the fit of asset C fails. *)
Definition four_models : gmap asset KNeighborsRegressor :=
  models_of (train_model ta (fit_fails "C" (Exception "forced failure")) five_assets []).

(** Weights that are 7 everywhere, for asset A. *)
Definition sevens : gmap asset (list float) :=
  {[ "A" := replicate 72 (Fin 7) ]}.

End Ref.

(** ** The channels as the specification words them

    Each is a function of the series of one asset. *)
Module Spec.

(** Rate of change of a 60-period weighted moving average of close. *)
Definition trend (lib : ta_lib) (close : list float) : list float :=
  roc lib (lwma lib close 60) 1.

(** The 9-period signal line of a 12/26-period MACD of close. *)
Definition macd_signal (lib : ta_lib) (close : list float) : list float :=
  snd (fst (macd lib close 12 26 9)).

(** The 14-period weighted moving average of true range divided by close. *)
Definition volatility (lib : ta_lib) (high low close : list float) : list float :=
  lwma lib (zip_with fdiv (tr lib high low close) close) 14.

(** The smoothed line (%D) of the 14-period stochastic oscillator. *)
Definition stochastic_d (lib : ta_lib) (high low close : list float) : list float :=
  snd (stochastic lib high low close 14).

(** The 14-period relative strength index. *)
Definition rsi14 (lib : ta_lib) (close : list float) : list float :=
  rsi lib close 14.

(** Natural log of close, missing values forward-filled, then back-filled,
    then zero-filled. *)
Definition log_price (close : list float) : list cell :=
  map np_log (fillna (Fin 0) (bfill (ffill close))).

(** The 14-period rate of change of close. *)
Definition momentum (lib : ta_lib) (close : list float) : list float :=
  roc lib close 14.

(** A series read over the [n] time steps of the tensor. *)
Definition over (n : nat) (column : list cell) : list cell :=
  map (fun t => nth t column (Num NaN)) (seq 0 n).

End Spec.

(** ** Contracts of the indicator library *)

(** An indicator is causal when its output on a prefix of the input is the
    prefix of its output. *)
Definition causal1 (f : list float -> list float) : Prop :=
  forall s k, f (take k s) = take k (f s).

Definition causal3 (f : list float -> list float -> list float -> list float) : Prop :=
  forall h l c k, f (take k h) (take k l) (take k c) = take k (f h l c).

Record causal_ta (lib : ta_lib) : Prop := mkCausalTa {
  lwma_causal : forall n, causal1 (fun s => lwma lib s n);
  roc_causal : forall n, causal1 (fun s => roc lib s n);
  macd_signal_causal :
    forall fast slow signal, causal1 (fun s => snd (fst (macd lib s fast slow signal)));
  tr_causal : causal3 (tr lib);
  stochastic_d_causal : forall n, causal3 (fun h l c => snd (stochastic lib h l c n));
  rsi_causal : forall n, causal1 (fun s => rsi lib s n)
}.

(** On a series without missing values, shifting by one period backward
    brings the next value to each time, and nothing to the last. *)
Definition shift_next (lib : ta_lib) : Prop :=
  forall s t, Forall (fun x => isnan x = false) s ->
    nth t (shift lib s (-1)) NaN = nth (S t) s NaN.

(** The neighbour search returns as many neighbours as it is asked for,
    when the training set has that many samples. *)
Definition kneighbors_count (env : sklearn_env) : Prop :=
  forall X x k, k <= length X -> length (kneighbors env X x k) = k.

(** ** Derived notions *)

(** The columns [get_features] concatenates, for one asset. *)
Definition feature_columns (lib : ta_lib) (data : DataArray float) (a : asset)
    : list (list cell) :=
  let close := sel data "close" a in
  let high := sel data "high" a in
  let low := sel data "low" a in
  [ map Num (Spec.trend lib close); map Num (Spec.macd_signal lib close);
    map Num (Spec.volatility lib high low close);
    map Num (Spec.stochastic_d lib high low close);
    map Num (Spec.rsi14 lib close); Spec.log_price close;
    map Num (Spec.momentum lib close) ].

Definition read_column (names : list string) (columns : list (list cell))
    (t : nat) (f : string) : cell :=
  match channel names columns f with
  | Some c => nth t c (Num NaN)
  | None => Num NaN
  end.

(** A value as the claim words it: present, or missing. *)
Definition present {A} `{IsNull A} (x : A) : option A :=
  if isnull x then None else Some x.

(** Whether the entry at time [t] is there and not missing. *)
Definition valid_at {A} `{IsNull A} (x : list A) (t : nat) : bool :=
  match x !! t with Some r => negb (isnull r) | None => false end.

(** A label is 0 or 1. *)
Definition binary (y : Z) : Prop := y = 0%Z \/ y = 1%Z.

(** A weight in the closed interval [0, 1]. *)
Definition in_unit (v : float) : Prop := exists q, v = Fin q /\ (0 <= q <= 1)%Q.

(** A regressor with at least one neighbour, fitted on binary labels. *)
Definition binary_model (m : KNeighborsRegressor) : Prop :=
  0 < n_neighbors m /\ Forall binary (fit_y m).

(** What the loops of [train_model] and [predict_weights] compute for one
    asset, named after the variables of the source. *)
Section PerAsset.

Variable lib : ta_lib.
Variable env : sklearn_env.
Variable data : DataArray float.

Definition features_cur (a : asset) : list (nat * list cell) :=
  dropna (sel_asset (get_features lib data) a).

Definition target_cur (a : asset) : list (nat * Z) :=
  dropna (get_target_classes lib data a).

Definition feature_for_learn (a : asset) : list (list cell) :=
  values (snd (align_inner (target_cur a) (features_cur a))).

Definition target_for_learn (a : asset) : list Z :=
  values (fst (align_inner (target_cur a) (features_cur a))).

(** The aligned (feature, label) samples of an asset. *)
Definition aligned_samples (a : asset) : list (list cell * Z) :=
  zip (feature_for_learn a) (target_for_learn a).

(** The feature row of an asset at time [t] is missing. *)
Definition row_missing (a : asset) (t : nat) : Prop :=
  valid_at (sel_asset (get_features lib data) a) t = false.

(** The model an iteration of [train_model] stores for an asset, if any. *)
Definition trained (a : asset) : option KNeighborsRegressor :=
  if (length (time_values (features_cur a)) <? 10)%nat then None
  else match fit_raises env a (feature_for_learn a) (target_for_learn a) with
       | Some _ => None
       | None => Some (mkKNN 5 (feature_for_learn a) (target_for_learn a))
       end.

(** The record an iteration of [train_model] logs for an asset, if any. *)
Definition train_failure (a : asset) : option log_record :=
  if (length (time_values (features_cur a)) <? 10)%nat then None
  else match fit_raises env a (feature_for_learn a) (target_for_learn a) with
       | Some e => Some ("model training failed", e)
       | None => None
       end.

Definition train_step (models : gmap asset KNeighborsRegressor) (a : asset)
    : gmap asset KNeighborsRegressor :=
  match trained a with Some m => <[a := m]> models | None => models end.

End PerAsset.

(** ** The derived fields of the price series

    The data cell of the notebook adds three fields to the loaded series:
    [ma_50], [ma_200] and [volatility], rolling aggregates of the close.
    The rolling mean and standard deviation of xarray are parameters. *)

(** [xr.concat([d, x1, x2, ...], dim="field")], each [x] a two-dimensional
    array expanded to the one field coordinate named beside it.  The names
    are taken to be new: a name [d] has already keeps the value of [d]. *)
Fixpoint named_column (columns : list (string * list float)) (f : string)
    : option (list float) :=
  match columns with
  | [] => None
  | (n, c) :: rest => if String.eqb n f then Some c else named_column rest f
  end.

Definition concat_fields (d : DataArray float)
    (arrays : list (string * (asset -> list float))) : DataArray float :=
  mkDataArray (field_coords d ++ map fst arrays)%list (asset_coords d)
    (fun a =>
       let columns := map (fun na => (fst na, snd na a)) arrays in
       imap (fun t entry f =>
               if existsb (String.eqb f) (field_coords d) then entry f
               else match named_column columns f with
                    | Some c => nth t c NaN
                    | None => entry f
                    end)
            (series d a)).

Section StockData.

Variable rolling_mean : list float -> nat -> list float.
Variable rolling_std : list float -> nat -> list float.

Definition add_derived_fields (stock_data : DataArray float) : DataArray float :=
  let ma_50 := fun a => rolling_mean (sel stock_data "close" a) 50 in
  let ma_200 := fun a => rolling_mean (sel stock_data "close" a) 200 in
  let volatility := fun a => rolling_std (sel stock_data "close" a) 50 in
  let stock_data :=
    concat_fields stock_data
      [("ma_50", ma_50); ("ma_200", ma_200); ("volatility", volatility)] in
  stock_data.

End StockData.

(** The weights a 5-nearest-neighbours mean of binary labels can take. *)
Definition fifths : list float :=
  [Fin 0; Fin (1 # 5); Fin (2 # 5); Fin (3 # 5); Fin (4 # 5); Fin 1].

(** The neighbour search returns indices of training samples, when the
    training set has as many samples as it is asked for. *)
Definition kneighbors_in_range (env : sklearn_env) : Prop :=
  forall X x k, k <= length X ->
    Forall (fun i => i < length X) (kneighbors env X x k).

(** No call to [predict] raises. *)
Definition predict_quiet (env : sklearn_env) : Prop :=
  forall a m X, predict_raises env a m X = None.

(** The shape of the weights through the loop of [predict_weights]. *)
Definition window_shape (data : DataArray float) (weights : gmap asset (list float))
    : Prop :=
  forall a, a ∈ asset_coords data ->
    exists row, weights !! a = Some row /\ length row = ntime data a.

(** ** Filling *)

Lemma length_ffill_from last s : length (ffill_from last s) = length s.
Proof. revert last. induction s as [|x s IH]; intros last; simpl; [done|]. by rewrite IH. Qed.

Lemma length_bfill s : length (bfill s) = length s.
Proof. induction s as [|x s IH]; simpl; [done|]. by rewrite IH. Qed.

Lemma length_fillna v s : length (fillna v s) = length s.
Proof. unfold fillna. by rewrite length_map. Qed.

(** Forward filling looks at the past only. *)
Lemma ffill_from_take last s k :
  ffill_from last (take k s) = take k (ffill_from last s).
Proof.
  revert last k. induction s as [|x s IH]; intros last [|k]; simpl; try done.
  by rewrite IH.
Qed.

(** Once a value has been seen, forward filling leaves nothing missing. *)
Lemma ffill_from_present last s t :
  t < length s ->
  isnan last = false \/ (exists t0, t0 <= t /\ isnan (nth t0 s NaN) = false) ->
  isnan (nth t (ffill_from last s) NaN) = false.
Proof.
  revert last t. induction s as [|x s IH]; intros last t Hlt Hseen; simpl in *; [lia|].
  destruct t as [|t].
  - destruct (isnan x) eqn:Hx; [|done].
    destruct Hseen as [Hlast|(t0 & Hle & Ht0)]; [done|].
    assert (t0 = 0) by lia. subst t0. simpl in Ht0. congruence.
  - apply IH; [lia|].
    destruct (isnan x) eqn:Hx.
    + destruct Hseen as [Hlast|(t0 & Hle & Ht0)]; [by left|].
      destruct t0 as [|t0]; [simpl in Ht0; congruence|].
      right. exists t0. split; [lia|done].
    + by left.
Qed.

(** Back filling leaves a value that is present as it is. *)
Lemma nth_bfill_present s t :
  isnan (nth t s NaN) = false -> nth t (bfill s) NaN = nth t s NaN.
Proof.
  revert t. induction s as [|x s IH]; intros t Hx; simpl in *; [by destruct t|].
  destruct t as [|t]; [by rewrite Hx|]. by apply IH.
Qed.

Lemma nth_fillna_present v s t :
  isnan (nth t s NaN) = false -> nth t (fillna v s) NaN = nth t s NaN.
Proof.
  revert t. induction s as [|x s IH]; intros t Hx; simpl in *; [by destruct t|].
  destruct t as [|t]; [by rewrite Hx|]. by apply IH.
Qed.

Lemma nth_take {A} (l : list A) k t d : t < k -> nth t (take k l) d = nth t l d.
Proof.
  revert k t. induction l as [|x l IH]; intros [|k] [|t] Hlt; simpl; try done; try lia.
  apply IH. lia.
Qed.

Lemma nth_fmap {A B} (g : A -> B) (l : list A) t d :
  nth t (map g l) (g d) = g (nth t l d).
Proof. revert t. induction l as [|x l IH]; intros [|t]; simpl; auto. Qed.

(** ** The feature tensor *)

Lemma series_get_features lib data a :
  series (get_features lib data) a =
  map (read_column feature_names (feature_columns lib data a)) (seq 0 (ntime data a)).
Proof. reflexivity. Qed.

Lemma cell_at_get_features lib data t f a :
  cell_at (get_features lib data) t f a =
  if (t <? ntime data a)%nat
  then Some (read_column feature_names (feature_columns lib data a) t f)
  else None.
Proof.
  unfold cell_at. rewrite series_get_features, list_lookup_fmap.
  destruct (Nat.ltb_spec t (ntime data a)) as [Hlt|Hge].
  - by rewrite lookup_seq_lt.
  - by rewrite lookup_seq_ge.
Qed.

Lemma sel_get_features lib data f a :
  sel (get_features lib data) f a =
  map (fun t => read_column feature_names (feature_columns lib data a) t f)
      (seq 0 (ntime data a)).
Proof. unfold sel. rewrite series_get_features. apply map_map. Qed.

Lemma sel_truncate {A} (d : DataArray A) t f a :
  sel (truncate d t) f a = take (S t) (sel d f a).
Proof. unfold sel, truncate. cbn [series]. apply fmap_take. Qed.

Lemma ntime_truncate {A} (d : DataArray A) t a :
  ntime (truncate d t) a = Nat.min (S t) (ntime d a).
Proof. unfold ntime, truncate. cbn [series]. apply length_take. Qed.

(** A causal column read at the last time of a prefix. *)
Lemma nth_Num_take (col : list float) t :
  nth t (map Num (take (S t) col)) (Num NaN) = nth t (map Num col) (Num NaN).
Proof. rewrite !nth_fmap. f_equal. apply nth_take. lia. Qed.

(** The price channel at [t] reads the past only once a close has been seen. *)
Lemma log_price_take close t :
  t < length close ->
  (exists t0, t0 <= t /\ isnan (nth t0 close NaN) = false) ->
  nth t (Spec.log_price (take (S t) close)) (Num NaN) =
  nth t (Spec.log_price close) (Num NaN).
Proof.
  intros Hlt Hseen. unfold Spec.log_price.
  change (Num NaN) with (np_log NaN). rewrite !nth_fmap. f_equal.
  assert (Hfull : isnan (nth t (ffill close) NaN) = false).
  { apply ffill_from_present; [done|by right]. }
  assert (Hcut : nth t (ffill (take (S t) close)) NaN = nth t (ffill close) NaN).
  { unfold ffill. rewrite ffill_from_take. apply nth_take. lia. }
  rewrite !nth_fillna_present, !nth_bfill_present; rewrite ?nth_bfill_present;
    congruence.
Qed.

(** C8. [get_features] produces exactly the seven channels trend, macd,
    volatility, stochastic_d, rsi, price and momentum, and each of them is
    the series the specification describes: the rate of change of the
    60-period weighted moving average of close, the signal line of the
    12/26/9 MACD of close, the 14-period weighted moving average of true
    range over close, the smoothed line of the 14-period stochastic
    oscillator, the 14-period relative strength index, the logarithm of the
    forward-, back- and zero-filled close, and the 14-period rate of change
    of close. *)
Theorem get_features_channels lib data a :
  let n := ntime data a in
  let close := sel data "close" a in
  let high := sel data "high" a in
  let low := sel data "low" a in
  let features := get_features lib data in
  field_coords features =
    ["trend"; "macd"; "volatility"; "stochastic_d"; "rsi"; "price"; "momentum"] /\
  sel features "trend" a = Spec.over n (map Num (Spec.trend lib close)) /\
  sel features "macd" a = Spec.over n (map Num (Spec.macd_signal lib close)) /\
  sel features "volatility" a =
    Spec.over n (map Num (Spec.volatility lib high low close)) /\
  sel features "stochastic_d" a =
    Spec.over n (map Num (Spec.stochastic_d lib high low close)) /\
  sel features "rsi" a = Spec.over n (map Num (Spec.rsi14 lib close)) /\
  sel features "price" a = Spec.over n (Spec.log_price close) /\
  sel features "momentum" a = Spec.over n (map Num (Spec.momentum lib close)).
Proof.
  intros n close high low features. split; [reflexivity|].
  subst features. rewrite !sel_get_features.
  repeat split; reflexivity.
Qed.

(** ** No lookahead *)

Section Causality.

Variable lib : ta_lib.
Hypothesis Hlib : causal_ta lib.

Lemma trend_causal : causal1 (Spec.trend lib).
Proof.
  intros s k. unfold Spec.trend.
  rewrite (lwma_causal lib Hlib 60 s k). apply (roc_causal lib Hlib 1).
Qed.

Lemma macd_signal_causal' : causal1 (Spec.macd_signal lib).
Proof. intros s k. apply (macd_signal_causal lib Hlib 12 26 9). Qed.

Lemma volatility_causal : causal3 (Spec.volatility lib).
Proof.
  intros h l c k. unfold Spec.volatility.
  rewrite (tr_causal lib Hlib h l c k), <- zip_with_take.
  apply (lwma_causal lib Hlib 14).
Qed.

Lemma stochastic_d_causal' : causal3 (Spec.stochastic_d lib).
Proof. intros h l c k. apply (stochastic_d_causal lib Hlib 14). Qed.

Lemma rsi14_causal : causal1 (Spec.rsi14 lib).
Proof. intros s k. apply (rsi_causal lib Hlib 14). Qed.

Lemma momentum_causal : causal1 (Spec.momentum lib).
Proof. intros s k. apply (roc_causal lib Hlib 14). Qed.

Lemma read_column_truncate data t f a :
  t < ntime data a ->
  (f = "price" ->
   exists t0 x, t0 <= t /\ sel data "close" a !! t0 = Some x /\ isnan x = false) ->
  read_column feature_names (feature_columns lib (truncate data t) a) t f =
  read_column feature_names (feature_columns lib data a) t f.
Proof.
  intros Hlt Hprice. unfold read_column, feature_names, feature_columns.
  rewrite !sel_truncate. cbn [channel].
  destruct (String.eqb "trend" f);
    [rewrite trend_causal; apply nth_Num_take|].
  destruct (String.eqb "macd" f);
    [rewrite macd_signal_causal'; apply nth_Num_take|].
  destruct (String.eqb "volatility" f);
    [rewrite volatility_causal; apply nth_Num_take|].
  destruct (String.eqb "stochastic_d" f);
    [rewrite stochastic_d_causal'; apply nth_Num_take|].
  destruct (String.eqb "rsi" f);
    [rewrite rsi14_causal; apply nth_Num_take|].
  destruct (String.eqb_spec "price" f) as [<-|_].
  - destruct (Hprice eq_refl) as (t0 & x & Hle & Hx & Hnan).
    apply log_price_take.
    + unfold sel. rewrite length_map. exact Hlt.
    + exists t0. split; [done|]. by rewrite (nth_lookup_Some _ _ _ _ Hx).
  - destruct (String.eqb "momentum" f);
      [rewrite momentum_causal; apply nth_Num_take|done].
Qed.

End Causality.

(** C1, as amended.  With a causal indicator library, the value of every
    channel of [get_features] other than price at time [t] is the same on
    the input truncated to the times [<= t] as on the full input; so is the
    value of the price channel, provided the close of the asset is present
    at some time [<= t]. *)
Theorem get_features_no_lookahead lib data t f a :
  causal_ta lib ->
  (f = "price" ->
   exists t0 x, t0 <= t /\ sel data "close" a !! t0 = Some x /\ isnan x = false) ->
  cell_at (get_features lib (truncate data t)) t f a =
  cell_at (get_features lib data) t f a.
Proof.
  intros Hlib Hprice. rewrite !cell_at_get_features, ntime_truncate.
  destruct (Nat.ltb_spec t (ntime data a)) as [Hlt|Hge].
  - destruct (Nat.ltb_spec t (Nat.min (S t) (ntime data a))) as [_|Hmin]; [|lia].
    f_equal. by apply read_column_truncate.
  - destruct (Nat.ltb_spec t (Nat.min (S t) (ntime data a))) as [Hmin|_]; [lia|done].
Qed.

(** C1, as stated, fails on the price channel: the close of asset A is
    missing on day 0 and is 5 on day 1.  On the full input the back-fill
    brings day 1's close to day 0 (log 5); on the input truncated to day 0
    nothing is left to fill from, and the zero-fill gives log 0.  No
    indicator library changes this. *)
Lemma price_channel_looks_ahead :
  ~ (exists lib,
       cell_at (get_features lib (truncate Ref.late_listing 0)) 0 "price" "A" =
       cell_at (get_features lib Ref.late_listing) 0 "price" "A").
Proof. intros [lib H]. vm_compute in H. discriminate H. Qed.

Example price_channel_full :
  cell_at (get_features Ref.ta Ref.late_listing) 0 "price" "A" = Some (LogOf 5).
Proof. reflexivity. Qed.

Example price_channel_truncated :
  cell_at (get_features Ref.ta (truncate Ref.late_listing 0)) 0 "price" "A"
  = Some (Num NegInf).
Proof. reflexivity. Qed.

(** ** The reference library meets the contracts *)

Lemma rolling_take {A} n (g : list A -> float) s k :
  Ref.rolling n g (take k s) = take k (Ref.rolling n g s).
Proof.
  unfold Ref.rolling. rewrite <- fmap_take, take_seq, length_take.
  apply map_ext_in. intros t Ht. apply in_seq in Ht.
  destruct (S t <? n)%nat; [done|]. f_equal.
  unfold Ref.window. rewrite take_take. f_equal. f_equal. lia.
Qed.

Lemma ref_lwma_causal n : causal1 (fun s => Ref.lwma s n).
Proof. intros s k. apply rolling_take. Qed.

Lemma ref_ta_causal : causal_ta Ref.ta.
Proof.
  split; unfold Ref.ta; cbn [lwma roc macd tr stochastic rsi].
  - apply ref_lwma_causal.
  - intros n s k. apply rolling_take.
  - intros fast slow signal s k. unfold Ref.macd. cbn [fst snd].
    rewrite !(ref_lwma_causal _ s k), <- zip_with_take. apply ref_lwma_causal.
  - intros h l c k. unfold Ref.tr. rewrite <- !zip_with_take. apply rolling_take.
  - intros n h l c k. unfold Ref.stochastic. cbn [snd].
    rewrite <- !zip_with_take, rolling_take. apply rolling_take.
  - intros n s k. apply rolling_take.
Qed.

Lemma ref_shift_next : shift_next Ref.ta.
Proof.
  intros s t _. simpl. unfold Ref.shift. simpl.
  destruct s as [|x s]; simpl; [by destruct t|].
  rewrite drop_0. destruct (Nat.lt_ge_cases t (length s)) as [Hlt|Hge].
  - by rewrite app_nth1.
  - rewrite app_nth2 by done. rewrite (nth_overflow s) by done.
    by destruct (t - length s) as [|[|?]].
Qed.

Lemma ref_kneighbors_count : kneighbors_count Ref.quiet.
Proof. intros X x k _. apply length_seq. Qed.

(** ** Labels *)

Lemma get_target_classes_next lib data a :
  shift_next lib ->
  Forall (fun x => isnan x = false) (sel data "close" a) ->
  get_target_classes lib data a =
  imap (fun t cur => if fgt (nth (S t) (sel data "close" a) NaN) cur then 1%Z else 0%Z)
       (sel data "close" a).
Proof.
  intros Hshift Hdense. unfold get_target_classes, xr_where_gt.
  apply imap_ext. intros t cur _. by rewrite Hshift.
Qed.

(** On a close series without missing values, with a shift that brings
    the next value to each time, the label at time [t] is 1 if
    close(t+1) > close(t) and 0 otherwise; at the final time step, where
    there is no t+1, it is 0. *)
Lemma get_target_classes_gap_free lib data a :
  shift_next lib ->
  Forall (fun x => isnan x = false) (sel data "close" a) ->
  length (get_target_classes lib data a) = length (sel data "close" a) /\
  forall t c, sel data "close" a !! t = Some c ->
    get_target_classes lib data a !! t =
    Some (match sel data "close" a !! S t with
          | Some c' => if fgt c' c then 1%Z else 0%Z
          | None => 0%Z
          end).
Proof.
  intros Hshift Hdense. rewrite (get_target_classes_next lib data a Hshift Hdense).
  split; [apply length_imap|].
  intros t c Ht. rewrite list_lookup_imap, Ht. simpl. f_equal.
  rewrite nth_lookup. by destruct (sel data "close" a !! S t).
Qed.

(** C3, at the close sequence [10, 12, 11, 11, 13].  With a shift that
    brings the next value to each time, [get_target_classes] returns
    [1, 0, 0, 1, 0]: on the final day, which has no next day, the future
    price is missing, the comparison with it is false and the label is
    [class_negative] = 0, "price goes down", where the claim has a missing
    value.  The labels are therefore not [1, 0, 0, 1, missing]; and, the
    final label being an integer, the [dropna] of [train_model] keeps the
    final day among the targets. *)
Theorem get_target_classes_final_label lib :
  shift_next lib ->
  get_target_classes lib Ref.five_closes "A" = [1; 0; 0; 1; 0]%Z /\
  present <$> get_target_classes lib Ref.five_closes "A" <>
    [Some 1; Some 0; Some 0; Some 1; None]%Z /\
  target_cur lib Ref.five_closes "A" =
    [(0, 1%Z); (1, 0%Z); (2, 0%Z); (3, 1%Z); (4, 0%Z)].
Proof.
  intros Hshift.
  assert (Hlabels : get_target_classes lib Ref.five_closes "A" = [1; 0; 0; 1; 0]%Z).
  { rewrite (get_target_classes_next lib _ _ Hshift); [reflexivity|].
    vm_compute. repeat constructor. }
  unfold target_cur. rewrite Hlabels. split; [reflexivity|].
  split; [|reflexivity]. vm_compute. discriminate.
Qed.

(** Whatever the shift does, the label of the last day of
    [10, 12, 11, 11, 13] is an integer, never missing. *)
Lemma last_label_not_missing :
  ~ (exists lib,
       present <$> get_target_classes lib Ref.five_closes "A" =
       [Some 1; Some 0; Some 0; Some 1; None]%Z).
Proof. intros [lib H]. vm_compute in H. discriminate H. Qed.

Example five_closes_labels :
  get_target_classes Ref.ta Ref.five_closes "A" = [1; 0; 0; 1; 0]%Z.
Proof. reflexivity. Qed.

(** The label of the final day is among the labels the model of an asset is
    fitted on: the last training sample of asset A of [five_assets] is that
    of day 71, the final day, with label 0. *)
Example final_label_is_fitted :
  length (sel Ref.five_assets "close" "A") = 72 /\
  last (time_values (fst (align_inner (target_cur Ref.ta Ref.five_assets "A")
                            (features_cur Ref.ta Ref.five_assets "A")))) = Some 71 /\
  last (target_for_learn Ref.ta Ref.five_assets "A") = Some 0%Z.
Proof. vm_compute. repeat split; reflexivity. Qed.

(** That label says nothing about the price: with the same 72 days and the
    next one, on which the close rises, the label of day 71 is 1. *)
Example final_label_changes_with_next_day :
  sel (truncate Ref.asset_A_next_day 71) "close" "A" = sel Ref.five_assets "close" "A" /\
  get_target_classes Ref.ta Ref.five_assets "A" !! 71 = Some 0%Z /\
  get_target_classes Ref.ta Ref.asset_A_next_day "A" !! 71 = Some 1%Z.
Proof. vm_compute. repeat split; reflexivity. Qed.

(** Every label is 0 or 1. *)
Lemma get_target_classes_binary lib data a :
  Forall binary (get_target_classes lib data a).
Proof.
  unfold get_target_classes, xr_where_gt. apply Forall_lookup_2.
  intros t y Hy. rewrite list_lookup_imap in Hy.
  destruct (sel data "close" a !! t) as [cur|]; [|done]. simpl in Hy.
  injection Hy as <-. unfold binary. destruct (fgt _ _); auto.
Qed.

(** ** Missing rows and alignment *)

Lemma fst_imap_pair_from {A} (x : list A) k :
  map fst (imap (fun i v => (k + i, v)) x) = seq k (length x).
Proof.
  revert k. induction x as [|v x IH]; intros k; simpl; [done|].
  f_equal; [lia|]. rewrite <- (IH (S k)). f_equal.
  apply imap_ext. intros i y _. simpl. f_equal. lia.
Qed.

Lemma fst_imap_pair {A} (x : list A) : map fst (imap pair x) = seq 0 (length x).
Proof. apply (fst_imap_pair_from x 0). Qed.

Lemma In_imap_pair {A} (x : list A) p :
  In p (imap pair x) <-> x !! fst p = Some (snd p).
Proof.
  rewrite <- list_elem_of_In, elem_of_lookup_imap. split.
  - intros (t & v & -> & Hv). done.
  - intros Hp. exists (fst p), (snd p). by destruct p.
Qed.

Lemma time_values_dropna {A} `{IsNull A} (x : list A) :
  time_values (dropna x) = List.filter (valid_at x) (seq 0 (length x)).
Proof.
  unfold time_values, dropna.
  rewrite (filter_ext_in _ (fun p => valid_at x (fst p))).
  - by rewrite <- filter_map_swap, fst_imap_pair.
  - intros p Hp%In_imap_pair. unfold valid_at. by rewrite Hp.
Qed.

Lemma In_dropna {A} `{IsNull A} (x : list A) p :
  In p (dropna x) <-> x !! fst p = Some (snd p) /\ isnull (snd p) = false.
Proof.
  unfold dropna. rewrite filter_In, In_imap_pair, negb_true_iff. tauto.
Qed.

Lemma existsb_eqb_In t l : existsb (Nat.eqb t) l = true <-> In t l.
Proof.
  rewrite existsb_exists. split.
  - intros (u & Hu & ->%Nat.eqb_eq). done.
  - intros Ht. exists t. by rewrite Nat.eqb_refl.
Qed.

Lemma has_time_dropna {A} `{IsNull A} (x : list A) t :
  has_time (dropna x) t = valid_at x t.
Proof.
  unfold has_time. rewrite time_values_dropna.
  apply eq_true_iff_eq. rewrite existsb_eqb_In, filter_In, in_seq.
  split; [tauto|]. intros Hv. split; [|done]. split; [lia|].
  unfold valid_at in Hv. destruct (x !! t) eqn:Hx; [|done].
  apply lookup_lt_Some in Hx. lia.
Qed.

(** An integer array has no missing value: nothing is dropped. *)
Lemma dropna_labels (y : list Z) : dropna y = imap pair y.
Proof. unfold dropna. apply (filter_true (imap pair y)). Qed.

Lemma valid_at_labels (y : list Z) t : valid_at y t = (t <? length y)%nat.
Proof.
  unfold valid_at. destruct (y !! t) eqn:Hy.
  - apply lookup_lt_Some in Hy. symmetry. by apply Nat.ltb_lt.
  - apply lookup_ge_None in Hy. symmetry. by apply Nat.ltb_ge.
Qed.

Lemma valid_at_lt {A} `{IsNull A} (x : list A) t : valid_at x t = true -> t < length x.
Proof.
  unfold valid_at. destruct (x !! t) eqn:Hx; [|done]. intros _.
  by apply lookup_lt_Some in Hx.
Qed.

Section Alignment.

Context {A : Type} `{IsNull A}.
Variable y : list Z.
Variable x : list A.
Hypothesis Hlen : length y = length x.

(** Aligning with the labels keeps every valid row. *)
Lemma align_inner_rows : snd (align_inner (dropna y) (dropna x)) = dropna x.
Proof.
  unfold align_inner. cbn [snd]. apply forallb_filter_id, forallb_forall.
  intros p (Hp & _)%In_dropna. rewrite has_time_dropna, valid_at_labels.
  apply Nat.ltb_lt. rewrite Hlen. by apply lookup_lt_Some in Hp.
Qed.

(** The labels that survive are those of the valid rows. *)
Lemma align_inner_labels :
  time_values (fst (align_inner (dropna y) (dropna x))) = time_values (dropna x).
Proof.
  unfold align_inner. cbn [fst]. unfold time_values at 1.
  rewrite <- (@filter_map_swap _ _ (has_time (dropna x)) fst).
  fold (time_values (dropna y)). rewrite !time_values_dropna.
  rewrite (filter_ext_in (valid_at y) (fun _ => true)), filter_true.
  - rewrite Hlen. apply filter_ext. intros t. apply has_time_dropna.
  - intros t Ht%in_seq. rewrite valid_at_labels. apply Nat.ltb_lt. lia.
Qed.

Lemma align_inner_count :
  length (fst (align_inner (dropna y) (dropna x))) = length (dropna x) /\
  length (snd (align_inner (dropna y) (dropna x))) = length (dropna x).
Proof.
  split; [|by rewrite align_inner_rows].
  rewrite <- (length_map fst). fold (time_values (fst (align_inner (dropna y) (dropna x)))).
  rewrite align_inner_labels. unfold time_values. apply length_map.
Qed.

(** Every surviving label is one of the labels. *)
Lemma align_inner_labels_In v :
  In v (values (fst (align_inner (dropna y) (dropna x)))) -> In v y.
Proof.
  unfold values, align_inner. cbn [fst]. rewrite in_map_iff.
  intros (p & <- & (Hp & _)%filter_In). apply In_dropna in Hp as [Hp _].
  rewrite <- list_elem_of_In. by eapply list_elem_of_lookup_2.
Qed.

End Alignment.

(** ** Training *)

Section Training.

Variable lib : ta_lib.
Variable env : sklearn_env.
Variable data : DataArray float.

Lemma length_labels a : length (get_target_classes lib data a) = ntime data a.
Proof.
  unfold get_target_classes, xr_where_gt, sel, ntime.
  by rewrite length_imap, length_map.
Qed.

Lemma length_rows a : length (sel_asset (get_features lib data) a) = ntime data a.
Proof.
  unfold sel_asset. by rewrite series_get_features, !length_map, length_seq.
Qed.

Lemma labels_rows_length a :
  length (get_target_classes lib data a) =
  length (sel_asset (get_features lib data) a).
Proof. by rewrite length_labels, length_rows. Qed.

(** The aligned samples are the valid feature rows, no more and no fewer:
    a label is never missing. *)
Lemma aligned_samples_count a :
  length (aligned_samples lib data a) = length (features_cur lib data a).
Proof.
  unfold aligned_samples, feature_for_learn, target_for_learn, values, target_cur,
    features_cur.
  rewrite length_zip, !length_map.
  destruct (align_inner_count _ _ (labels_rows_length a)) as [-> ->]. lia.
Qed.

Lemma target_for_learn_binary a :
  Forall binary (target_for_learn lib data a).
Proof.
  apply Forall_forall. intros v Hv%list_elem_of_In.
  apply align_inner_labels_In in Hv.
  pose proof (get_target_classes_binary lib data a) as Hall.
  rewrite Forall_forall in Hall. by apply Hall, list_elem_of_In.
Qed.

(** One iteration of the loop of [train_model]. *)
Lemma train_asset_eq a models l :
  train_asset env (get_features lib data) (get_target_classes lib data)
    a models l =
  (Ret (train_step lib env data models a),
   (l ++ option_list (train_failure lib env data a))%list).
Proof.
  unfold train_asset, train_step, trained, train_failure.
  fold (features_cur lib data a). fold (target_cur lib data a).
  unfold align_inner.
  change (values (List.filter (fun p => has_time (target_cur lib data a) (fst p))
                    (features_cur lib data a)))
    with (feature_for_learn lib data a).
  change (values (List.filter (fun p => has_time (features_cur lib data a) (fst p))
                    (target_cur lib data a)))
    with (target_for_learn lib data a).
  destruct (length (time_values (features_cur lib data a)) <? 10)%nat.
  { unfold mret. simpl. by rewrite app_nil_r. }
  unfold try_except, mbind, fit, get_model. cbn [n_neighbors].
  destruct (fit_raises env a _ _) as [e|]; simpl.
  - reflexivity.
  - by rewrite app_nil_r.
Qed.

Lemma for_each_train assets models l :
  for_each assets
    (train_asset env (get_features lib data) (get_target_classes lib data))
    models l =
  (Ret (foldl (train_step lib env data) models assets),
   (l ++ omap (train_failure lib env data) assets)%list).
Proof.
  revert models l. induction assets as [|a assets IH]; intros models l; simpl.
  { unfold mret. by rewrite app_nil_r. }
  unfold mbind. rewrite train_asset_eq, IH, <- app_assoc. f_equal. f_equal.
  by destruct (train_failure lib env data a).
Qed.

(** [train_model] always returns: a mapping and the log of the failures. *)
Lemma train_model_eq l :
  train_model lib env data l =
  (Ret (foldl (train_step lib env data) ∅ (asset_coords data)),
   (l ++ omap (train_failure lib env data) (asset_coords data))%list).
Proof. apply for_each_train. Qed.

Lemma lookup_foldl_train_step assets (models : gmap asset KNeighborsRegressor) a :
  foldl (train_step lib env data) models assets !! a =
  match trained lib env data a with
  | Some m => if decide (a ∈ assets) then Some m else models !! a
  | None => models !! a
  end.
Proof.
  revert models. induction assets as [|b assets IH]; intros models; simpl.
  { destruct (trained lib env data a); [|done].
    destruct (decide (a ∈ [])) as [Hin|_]; [|done]. by apply elem_of_nil in Hin. }
  rewrite IH. destruct (trained lib env data a) as [m|] eqn:Ha.
  - destruct (decide (a ∈ assets)) as [Hin|Hnin].
    + rewrite decide_True; [done|by right].
    + destruct (decide (b = a)) as [->|Hne].
      * rewrite decide_True by left. unfold train_step. rewrite Ha.
        apply lookup_insert_eq.
      * rewrite decide_False by (intros [->|?]%elem_of_cons; done).
        unfold train_step.
        destruct (trained lib env data b); [by rewrite lookup_insert_ne|done].
  - unfold train_step. destruct (decide (b = a)) as [->|Hne]; [by rewrite Ha|].
    destruct (trained lib env data b); [by rewrite lookup_insert_ne|done].
Qed.

(** The mapping [train_model] returns holds, for an asset of the input, the
    model trained on it, if any, and nothing for another asset. *)
Lemma train_model_lookup l models l' a :
  train_model lib env data l = (Ret models, l') ->
  models !! a =
  if decide (a ∈ asset_coords data) then trained lib env data a else None.
Proof.
  rewrite train_model_eq. intros [= <- _]. rewrite lookup_foldl_train_step.
  rewrite lookup_empty.
  destruct (trained lib env data a), (decide (a ∈ asset_coords data)); done.
Qed.

End Training.

(** ** Writing into the weights *)

Lemma length_set_times row times vals :
  length (set_times row times vals) = length row.
Proof.
  unfold set_times. generalize (zip times vals). intros tvs. revert row.
  induction tvs as [|tv tvs IH]; intros row; simpl; [done|].
  by rewrite IH, length_insert.
Qed.

(** A time that is not assigned keeps its value. *)
Lemma set_times_lookup_other row times vals t :
  ~ In t times -> set_times row times vals !! t = row !! t.
Proof.
  unfold set_times. intros Hnot.
  assert (Hfst : forall tv, tv ∈ zip times vals -> fst tv <> t).
  { intros [u v] Huv%elem_of_zip_l. simpl. intros ->. by apply Hnot, list_elem_of_In. }
  revert Hfst. generalize (zip times vals). intros tvs. revert row.
  induction tvs as [|tv tvs IH]; intros row Hfst; simpl; [done|].
  rewrite IH.
  - apply list_lookup_insert_ne, Hfst. left.
  - intros tv' Htv'. apply Hfst. by right.
Qed.

(** Every value after the assignment was there before or is one of the
    assigned values. *)
Lemma set_times_Forall (P : float -> Prop) row times vals :
  Forall P row -> Forall P vals -> Forall P (set_times row times vals).
Proof.
  unfold set_times. intros Hrow Hvals.
  assert (Hsnd : forall tv, tv ∈ zip times vals -> P (snd tv)).
  { intros [u v] Huv%elem_of_zip_r. rewrite Forall_forall in Hvals. by apply Hvals. }
  revert Hrow Hsnd. generalize (zip times vals). intros tvs. revert row.
  induction tvs as [|tv tvs IH]; intros row Hrow Hsnd; simpl; [done|].
  apply IH.
  - apply Forall_insert; [done|]. apply Hsnd. left.
  - intros tv' Htv'. apply Hsnd. by right.
Qed.

Lemma loc_assign_Ret weights a times vals l weights' l' :
  loc_assign weights a times vals l = (Ret weights', l') ->
  exists row, weights !! a = Some row /\
              weights' = <[a := set_times row times vals]> weights /\ l' = l.
Proof.
  unfold loc_assign. destruct (weights !! a) as [row|]; [|discriminate].
  destruct (negb (forallb _ times)); [discriminate|].
  destruct (negb (length times =? length vals)%nat); [discriminate|].
  intros [= <- <-]. by exists row.
Qed.

Lemma lookup_zeros_like n assets a :
  zeros_like n assets !! a =
  if decide (a ∈ assets) then Some (replicate (n a) (Fin 0)) else None.
Proof.
  unfold zeros_like. induction assets as [|b assets IH]; simpl.
  { rewrite lookup_empty. destruct (decide (a ∈ [])) as [Hin|_]; [|done].
    by apply elem_of_nil in Hin. }
  destruct (decide (b = a)) as [->|Hne].
  - rewrite lookup_insert_eq, decide_True; [done|left].
  - rewrite lookup_insert_ne, IH by done.
    destruct (decide (a ∈ assets)) as [Hin|Hnin].
    + rewrite decide_True; [done|by right].
    + rewrite decide_False; [done|]. by intros [->|?]%elem_of_cons.
Qed.

(** ** Valid rows *)

Lemma In_time_values_dropna {A} `{IsNull A} (x : list A) t :
  In t (time_values (dropna x)) <-> valid_at x t = true.
Proof.
  rewrite time_values_dropna, filter_In, in_seq. split; [tauto|].
  intros Hv. split; [|done]. apply valid_at_lt in Hv. lia.
Qed.

Lemma dropna_nil_valid_at {A} `{IsNull A} (x : list A) t :
  dropna x = [] -> valid_at x t = false.
Proof.
  intros Hnil. destruct (valid_at x t) eqn:Hv; [|done].
  apply In_time_values_dropna in Hv. rewrite Hnil in Hv. destruct Hv.
Qed.

(** ** The loops *)

Lemma for_each_Ret_inv {A S} (P : S -> Prop) (body : A -> S -> M S) xs :
  (forall x s l s' l', body x s l = (Ret s', l') -> P s -> P s') ->
  forall s l s' l', for_each xs body s l = (Ret s', l') -> P s -> P s'.
Proof.
  intros Hbody. induction xs as [|x xs IH]; intros s l s' l'; simpl.
  { by intros [= <- _]. }
  unfold mbind. destruct (body x s l) as [[s1|e] l1] eqn:Hx; [|discriminate].
  intros Hrest Hs. eapply IH; [exact Hrest|]. eapply Hbody; eauto.
Qed.

(** ** The regressor's predictions *)

Lemma sum_binary ys :
  Forall binary ys -> (0 <= foldr Z.add 0 ys <= Z.of_nat (length ys))%Z.
Proof.
  induction 1 as [|y ys [-> | ->] _ IH]; simpl length; simpl foldr; lia.
Qed.

(** The mean of binary labels, at least one of them, is in [0, 1]. *)
Lemma mean_labels_unit ys : ys <> [] -> Forall binary ys -> in_unit (mean_labels ys).
Proof.
  intros Hne Hbin. pose proof (sum_binary ys Hbin) as [Hlo Hhi].
  assert (Hpos : (0 < Z.of_nat (length ys))%Z) by (destruct ys; [done|simpl; lia]).
  unfold mean_labels, fdiv.
  destruct (Qeq_bool (inject_Z (Z.of_nat (length ys))) 0) eqn:Hz.
  { apply Qeq_bool_eq in Hz. unfold Qeq in Hz. simpl in Hz. lia. }
  eexists. split; [reflexivity|]. rewrite Qred_correct.
  assert (Hn : (0 < inject_Z (Z.of_nat (length ys)))%Q).
  { change 0%Q with (inject_Z 0). by rewrite <- Zlt_Qlt. }
  split.
  - apply Qle_shift_div_l; [done|]. rewrite Qmult_0_l.
    change 0%Q with (inject_Z 0). by rewrite <- Zle_Qle.
  - apply Qle_shift_div_r; [done|]. rewrite Qmult_1_l. by rewrite <- Zle_Qle.
Qed.

Section Prediction.

Variable lib : ta_lib.
Variable env : sklearn_env.
Variable models : gmap asset KNeighborsRegressor.
Variable data : DataArray float.

Lemma predict_Ret a m X l ys l' :
  predict env a m X l = (Ret ys, l') ->
  n_neighbors m <= length (fit_X m) /\
  mapM (predict_row env m) X = Some ys /\ l' = l.
Proof.
  unfold predict. destruct (predict_raises env a m X); [discriminate|].
  destruct (Nat.ltb_spec (length (fit_X m)) (n_neighbors m)); [discriminate|].
  destruct (mapM (predict_row env m) X); [|discriminate].
  by intros [= <- <-].
Qed.

Lemma predict_row_unit m x v :
  kneighbors_count env -> binary_model m ->
  n_neighbors m <= length (fit_X m) ->
  predict_row env m x = Some v -> in_unit v.
Proof.
  intros Hcount [Hk Hbin] Hfit. unfold predict_row.
  intros (ys & Hys & ->)%fmap_Some. apply mean_labels_unit.
  - apply length_mapM in Hys. rewrite Hcount in Hys by done.
    destruct ys; [simpl in Hys; lia|done].
  - apply mapM_Some_1 in Hys. rewrite Forall_forall in Hbin.
    apply Forall_forall. intros y Hy.
    destruct (proj1 (list_elem_of_lookup _ _) Hy) as [j Hj].
    destruct (Forall2_lookup_r _ _ _ _ _ Hys Hj) as (i & _ & Hi).
    apply Hbin. by eapply list_elem_of_lookup_2.
Qed.

(** One iteration of the loop of [predict_weights] that returns either
    leaves the weights as they are or assigns the predictions of the model
    at the times of the valid rows. *)
Lemma predict_asset_Ret b weights l weights' l' :
  predict_asset lib env models data b weights l = (Ret weights', l') ->
  weights' = weights \/
  exists m row ys,
    models !! b = Some m /\ weights !! b = Some row /\
    features_cur lib data b <> [] /\
    n_neighbors m <= length (fit_X m) /\
    mapM (predict_row env m) (values (features_cur lib data b)) = Some ys /\
    weights' =
      <[b := set_times row (time_values (features_cur lib data b)) ys]> weights.
Proof.
  unfold predict_asset. destruct (models !! b) as [m|]; [|intros [= <- _]; by left].
  fold (features_cur lib data b).
  destruct (length (time_values (features_cur lib data b)) <? 1)%nat eqn:Hlen.
  { intros [= <- _]. by left. }
  unfold try_except, mbind.
  destruct (predict env b m (values (features_cur lib data b)) l)
    as [[ys|e] l1] eqn:Hp.
  - apply predict_Ret in Hp as (Hfit & Hys & ->).
    destruct (loc_assign weights b _ ys l) as [[w1|e] l2] eqn:Hl.
    + intros [= <- <-]. apply loc_assign_Ret in Hl as (row & Hrow & -> & _).
      right. exists m, row, ys. repeat split; try done.
      intros Hnil. rewrite Hnil in Hlen. discriminate Hlen.
    + destruct e; simpl; [discriminate|]. intros [= <- _]. by left.
  - destruct e; simpl; [discriminate|]. intros [= <- _]. by left.
Qed.

(** What an iteration leaves untouched: the other assets, and the times at
    which the feature row of the asset is missing. *)
Lemma predict_asset_frame b weights l weights' l' :
  predict_asset lib env models data b weights l = (Ret weights', l') ->
  forall a t,
    a <> b \/ models !! a = None \/ row_missing lib data a t ->
    entry weights' t a = entry weights t a.
Proof.
  intros [->|(m & row & ys & Hm & Hrow & _ & _ & _ & ->)]%predict_asset_Ret a t Hcase;
    [done|].
  unfold entry. destruct (decide (a = b)) as [->|Hne].
  - rewrite lookup_insert_eq, Hrow. simpl.
    destruct Hcase as [Hne|[Hnone|Hmiss]]; [done|congruence|].
    apply set_times_lookup_other. unfold features_cur.
    rewrite In_time_values_dropna. unfold row_missing in Hmiss. congruence.
  - by rewrite lookup_insert_ne.
Qed.

(** An iteration keeps the coordinates of the weights. *)
Lemma predict_asset_shape b weights l weights' l' :
  predict_asset lib env models data b weights l = (Ret weights', l') ->
  forall a, length <$> weights' !! a = length <$> weights !! a.
Proof.
  intros [->|(m & row & ys & _ & Hrow & _ & _ & _ & ->)]%predict_asset_Ret a; [done|].
  destruct (decide (a = b)) as [->|Hne].
  - rewrite lookup_insert_eq, Hrow. simpl. by rewrite length_set_times.
  - by rewrite lookup_insert_ne.
Qed.

(** An iteration with sound models keeps the weights in [0, 1]. *)
Lemma predict_asset_unit b weights l weights' l' :
  kneighbors_count env ->
  (forall a m, models !! a = Some m -> binary_model m) ->
  predict_asset lib env models data b weights l = (Ret weights', l') ->
  (forall a row, weights !! a = Some row -> Forall in_unit row) ->
  forall a row, weights' !! a = Some row -> Forall in_unit row.
Proof.
  intros Hcount Hmodels
    [->|(m & row0 & ys & Hm & Hrow0 & _ & Hfit & Hys & ->)]%predict_asset_Ret Hw a row;
    [apply Hw|].
  destruct (decide (a = b)) as [->|Hne].
  - rewrite lookup_insert_eq. intros [= <-].
    apply set_times_Forall; [by eapply Hw|].
    apply mapM_Some_1 in Hys. apply Forall_forall. intros v Hv.
    destruct (proj1 (list_elem_of_lookup _ _) Hv) as [j Hj].
    destruct (Forall2_lookup_r _ _ _ _ _ Hys Hj) as (x & _ & Hx).
    eapply predict_row_unit; eauto.
  - rewrite lookup_insert_ne by done. apply Hw.
Qed.

End Prediction.

(** ** The claims on [train_model] *)

Lemma length_time_values {A} (x : list (nat * A)) : length (time_values x) = length x.
Proof. apply length_map. Qed.

(** C2. An asset with fewer than 10 aligned (feature, label) samples has no
    entry in the mapping [train_model] returns, and this is a skip, not an
    error: [train_model] returns, and the iteration of the asset leaves the
    mapping and the log as they were. *)
Theorem train_model_insufficient_data lib env data a l :
  length (aligned_samples lib data a) < 10 ->
  exists models l',
    train_model lib env data l = (Ret models, l') /\
    models !! a = None /\
    forall models0 l0,
      train_asset env (get_features lib data) (get_target_classes lib data)
        a models0 l0 = (Ret models0, l0).
Proof.
  rewrite aligned_samples_count. intros Hshort.
  assert (Hlt : (length (time_values (features_cur lib data a)) <? 10)%nat = true).
  { rewrite length_time_values. by apply Nat.ltb_lt. }
  assert (Htrained : trained lib env data a = None).
  { unfold trained. by rewrite Hlt. }
  assert (Hfailure : train_failure lib env data a = None).
  { unfold train_failure. by rewrite Hlt. }
  eexists _, _. split; [apply train_model_eq|]. split.
  - by rewrite lookup_foldl_train_step, Htrained, lookup_empty.
  - intros models0 l0. rewrite train_asset_eq. unfold train_step.
    rewrite Htrained, Hfailure. simpl. by rewrite app_nil_r.
Qed.

(** C6. When the fit of one asset fails with an exception other than a
    user interrupt, [train_model] logs the failure, leaves that asset out
    of the mapping it returns, and still holds the trained model of every
    other asset that has enough rows and whose fit succeeds. *)
Theorem train_model_skip_and_continue lib env data a e l :
  e <> KeyboardInterrupt ->
  a ∈ asset_coords data ->
  10 <= length (features_cur lib data a) ->
  fit_raises env a (feature_for_learn lib data a) (target_for_learn lib data a)
    = Some e ->
  exists models l',
    train_model lib env data l = (Ret models, l') /\
    In ("model training failed", e) l' /\
    models !! a = None /\
    forall b, b ∈ asset_coords data ->
      10 <= length (features_cur lib data b) ->
      fit_raises env b (feature_for_learn lib data b) (target_for_learn lib data b)
        = None ->
      models !! b =
        Some (mkKNN 5 (feature_for_learn lib data b) (target_for_learn lib data b)).
Proof.
  intros _ Ha Hrows Hfit.
  assert (Henough : forall b, 10 <= length (features_cur lib data b) ->
            (length (time_values (features_cur lib data b)) <? 10)%nat = false).
  { intros b Hb. rewrite length_time_values. by apply Nat.ltb_ge. }
  eexists _, _. split; [apply train_model_eq|]. split; [|split].
  - apply in_or_app. right. apply list_elem_of_In, list_elem_of_omap.
    exists a. split; [done|]. unfold train_failure. by rewrite Henough, Hfit.
  - rewrite lookup_foldl_train_step. unfold trained.
    by rewrite Henough, Hfit, lookup_empty.
  - intros b Hb Hrowsb Hfitb. rewrite lookup_foldl_train_step. unfold trained.
    rewrite Henough, Hfitb by done. by rewrite decide_True.
Qed.

(** C5 at a failing input: the user interrupts the fit of asset C.
    [train_model] returns all the same: the interrupt is logged as a
    training failure and the loop goes on to train asset D. *)
Theorem train_model_swallows_interrupt :
  exists models,
    train_model Ref.ta (Ref.fit_fails "C" KeyboardInterrupt) Ref.five_assets [] =
      (Ret models, [("model training failed", KeyboardInterrupt)]) /\
    models !! "C" = None /\ is_Some (models !! "D").
Proof.
  eexists. split; [rewrite train_model_eq; f_equal; vm_compute; reflexivity|].
  rewrite !lookup_foldl_train_step. split.
  - vm_compute. reflexivity.
  - vm_compute. eexists. reflexivity.
Qed.

(** The handlers of the other two loops let the interrupt through. *)
Example predict_weights_propagates_interrupt :
  fst (predict_weights Ref.ta (Ref.predict_fails "D" KeyboardInterrupt)
         Ref.four_models Ref.five_assets [])
  = Raise KeyboardInterrupt.
Proof. vm_compute. reflexivity. Qed.

Example global_training_propagates_interrupt :
  fst (global_training Ref.ta (Ref.fit_fails "C" KeyboardInterrupt)
         Ref.five_assets [])
  = Raise KeyboardInterrupt.
Proof. vm_compute. reflexivity. Qed.

(** In [predict_weights] an interrupt raised by [predict] leaves the
    iteration, whatever the asset. *)
Lemma predict_asset_interrupt lib env models data a m weights l :
  models !! a = Some m ->
  features_cur lib data a <> [] ->
  predict_raises env a m (values (features_cur lib data a)) = Some KeyboardInterrupt ->
  predict_asset lib env models data a weights l = (Raise KeyboardInterrupt, l).
Proof.
  intros Hm Hrows Hraise. unfold predict_asset. rewrite Hm.
  fold (features_cur lib data a).
  destruct (length (time_values (features_cur lib data a)) <? 1)%nat eqn:Hlen.
  { apply Nat.ltb_lt in Hlen. rewrite length_time_values in Hlen.
    destruct (features_cur lib data a); [done|simpl in Hlen; lia]. }
  unfold try_except, mbind, predict. by rewrite Hraise.
Qed.

(** ** The claims on [predict_weights] *)

(** C7. For an asset with a trained model, the iteration of
    [predict_weights] writes at no time at which the feature row of the
    asset is missing: whatever the weights were before, the entry at such
    a time is the same after.  With no valid row at all it writes nothing. *)
Theorem predict_asset_writes_valid_rows_only
    lib env models data a m weights l weights' l' :
  models !! a = Some m ->
  predict_asset lib env models data a weights l = (Ret weights', l') ->
  (forall t, row_missing lib data a t -> entry weights' t a = entry weights t a) /\
  (features_cur lib data a = [] -> weights' = weights).
Proof.
  intros _ Hrun. split.
  - intros t Hmiss. eapply predict_asset_frame; eauto.
  - intros Hnil.
    apply predict_asset_Ret in Hrun as [->|(_ & _ & _ & _ & _ & Hne & _)]; done.
Qed.

Lemma predict_weights_frame lib env models data weights0 l weights l' :
  for_each (asset_coords data) (predict_asset lib env models data) weights0 l
    = (Ret weights, l') ->
  (forall a, length <$> weights !! a = length <$> weights0 !! a) /\
  (forall a t, models !! a = None \/ row_missing lib data a t ->
     entry weights t a = entry weights0 t a).
Proof.
  intros Hrun.
  eapply (for_each_Ret_inv
            (fun w => (forall a, length <$> w !! a = length <$> weights0 !! a) /\
                      (forall a t, models !! a = None \/ row_missing lib data a t ->
                         entry w t a = entry weights0 t a)));
    [|exact Hrun|done].
  intros b w l1 w' l1' Hb [Hshape Hframe]. split.
  - intros a. rewrite <- Hshape. eapply predict_asset_shape; eauto.
  - intros a t Hcase. rewrite <- Hframe by done.
    eapply predict_asset_frame; [exact Hb|by right].
Qed.

(** C4. The weights [predict_weights] returns have an entry for every
    (time, asset) of the window and for nothing else, and the entry is zero
    wherever the asset has no model in the mapping, has no valid feature
    row at all, or has a missing feature row at that time. *)
Theorem predict_weights_zero_default lib env models data l weights l' :
  predict_weights lib env models data l = (Ret weights, l') ->
  (forall a, a ∉ asset_coords data -> weights !! a = None) /\
  forall a, a ∈ asset_coords data ->
    (exists row, weights !! a = Some row /\ length row = ntime data a) /\
    forall t, t < ntime data a ->
      models !! a = None \/ features_cur lib data a = [] \/ row_missing lib data a t ->
      entry weights t a = Some (Fin 0).
Proof.
  unfold predict_weights. intros [Hshape Hframe]%predict_weights_frame. split.
  - intros a Ha. specialize (Hshape a).
    rewrite lookup_zeros_like, decide_False in Hshape by done.
    by destruct (weights !! a).
  - intros a Ha. split.
    + specialize (Hshape a). rewrite lookup_zeros_like, decide_True in Hshape by done.
      destruct (weights !! a) as [row|]; [|done]. exists row. split; [done|].
      simpl in Hshape. injection Hshape as ->. apply length_replicate.
    + intros t Ht Hcase. rewrite Hframe.
      * unfold entry. rewrite lookup_zeros_like, decide_True by done. simpl.
        by apply lookup_replicate_2.
      * destruct Hcase as [Hnone|[Hnil|Hmiss]]; [by left| |by right].
        right. unfold row_missing. by apply dropna_nil_valid_at.
Qed.

Lemma in_unit_zero : in_unit (Fin 0).
Proof. exists 0%Q. split; [done|]. split; unfold Qle; simpl; lia. Qed.

(** The models [train_model] returns have five neighbours and binary labels. *)
Lemma train_model_binary lib env data l models l' a m :
  train_model lib env data l = (Ret models, l') ->
  models !! a = Some m -> binary_model m.
Proof.
  intros Hrun Hm. rewrite (train_model_lookup lib env data l models l' a Hrun) in Hm.
  destruct (decide (a ∈ asset_coords data)); [|done].
  unfold trained in Hm. destruct (_ <? _)%nat; [done|].
  destruct (fit_raises env a _ _); [done|]. injection Hm as <-.
  split; simpl; [lia|apply target_for_learn_binary].
Qed.

(** C10. With models that [train_model] returned, and a neighbour search
    that returns the five neighbours it is asked for, every entry of the
    weights [predict_weights] returns is a number of the closed interval
    [0, 1]. *)
Theorem predict_weights_in_unit_interval
    lib env_train env train_data l0 models l1 data l2 weights l3 :
  kneighbors_count env ->
  train_model lib env_train train_data l0 = (Ret models, l1) ->
  predict_weights lib env models data l2 = (Ret weights, l3) ->
  forall a t v, entry weights t a = Some v -> in_unit v.
Proof.
  intros Hcount Htrain Hrun a t v Hv.
  assert (Hall : forall b row, weights !! b = Some row -> Forall in_unit row).
  { eapply (for_each_Ret_inv
              (fun w => forall b row, w !! b = Some row -> Forall in_unit row));
      [|exact Hrun|].
    - intros b w l w' l' Hb Hw. eapply predict_asset_unit; eauto.
      intros c m Hm. eapply train_model_binary; eauto.
    - intros b row. rewrite lookup_zeros_like.
      destruct (decide (b ∈ asset_coords data)); [|done]. intros [= <-].
      apply Forall_replicate, in_unit_zero. }
  unfold entry in Hv. destruct (weights !! a) as [row|] eqn:Hrow; [|done].
  simpl in Hv. specialize (Hall a row Hrow). rewrite Forall_forall in Hall.
  apply Hall. by eapply list_elem_of_lookup_2.
Qed.

(** ** The statements on concrete inputs *)

Lemma get_features_no_lookahead_witness :
  causal_ta Ref.ta /\
  sel Ref.five_assets "close" "A" !! 3 = Some (Fin 52) /\
  cell_at (get_features Ref.ta (truncate Ref.five_assets 65)) 65 "price" "A" =
  cell_at (get_features Ref.ta Ref.five_assets) 65 "price" "A".
Proof.
  split; [exact ref_ta_causal|]. split; [reflexivity|].
  apply get_features_no_lookahead; [exact ref_ta_causal|].
  intros _. exists 3, (Fin 52). repeat split; [lia|reflexivity..].
Defined.

Lemma get_target_classes_final_label_witness :
  shift_next Ref.ta /\
  get_target_classes Ref.ta Ref.five_closes "A" !! 4 = Some 0%Z /\
  target_cur Ref.ta Ref.five_closes "A" !! 4 = Some (4, 0%Z).
Proof.
  destruct (get_target_classes_final_label Ref.ta ref_shift_next)
    as (Hlabels & _ & Htargets).
  split; [exact ref_shift_next|]. by rewrite Hlabels, Htargets.
Defined.

Lemma train_model_insufficient_data_witness :
  length (aligned_samples Ref.ta (truncate Ref.five_assets 62) "A") = 3 /\
  exists models l',
    train_model Ref.ta Ref.quiet (truncate Ref.five_assets 62) [] = (Ret models, l') /\
    models !! "A" = None /\
    forall models0 l0,
      train_asset Ref.quiet (get_features Ref.ta (truncate Ref.five_assets 62))
        (get_target_classes Ref.ta (truncate Ref.five_assets 62)) "A" models0 l0 =
      (Ret models0, l0).
Proof.
  assert (Hcount : length (aligned_samples Ref.ta (truncate Ref.five_assets 62) "A") = 3).
  { vm_compute. reflexivity. }
  split; [exact Hcount|].
  apply train_model_insufficient_data. rewrite Hcount. lia.
Defined.

Lemma train_model_skip_and_continue_witness :
  exists models l',
    train_model Ref.ta (Ref.fit_fails "C" (Exception "forced failure"))
      Ref.five_assets [] = (Ret models, l') /\
    In ("model training failed", Exception "forced failure") l' /\
    models !! "C" = None /\
    is_Some (models !! "A") /\ is_Some (models !! "B") /\
    is_Some (models !! "D") /\ is_Some (models !! "E").
Proof.
  assert (Hrows : forall b, b ∈ ["A"; "B"; "C"; "D"; "E"] ->
            10 <= length (features_cur Ref.ta Ref.five_assets b)).
  { intros b Hb. repeat (apply elem_of_cons in Hb as [->|Hb]; [vm_compute; lia|]).
    by apply elem_of_nil in Hb. }
  destruct (train_model_skip_and_continue Ref.ta
              (Ref.fit_fails "C" (Exception "forced failure")) Ref.five_assets
              "C" (Exception "forced failure") [])
    as (models & l' & Hrun & Hlog & HC & Hothers).
  - discriminate.
  - repeat constructor.
  - apply Hrows. repeat constructor.
  - reflexivity.
  - exists models, l'. split; [exact Hrun|]. split; [exact Hlog|]. split; [exact HC|].
    repeat split; eexists; apply Hothers;
      first [reflexivity | apply Hrows; repeat constructor | repeat constructor].
Defined.

Lemma predict_weights_zero_default_witness :
  exists weights l',
    predict_weights Ref.ta Ref.quiet Ref.four_models Ref.five_assets [] =
      (Ret weights, l') /\
    Ref.four_models !! "C" = None /\
    row_missing Ref.ta Ref.five_assets "A" 3 /\
    entry weights 65 "C" = Some (Fin 0) /\
    entry weights 3 "A" = Some (Fin 0).
Proof.
  destruct (predict_weights Ref.ta Ref.quiet Ref.four_models Ref.five_assets [])
    as [[weights|e] l'] eqn:Hrun; [|vm_compute in Hrun; discriminate Hrun].
  assert (HC : Ref.four_models !! "C" = None) by (vm_compute; reflexivity).
  assert (HA : row_missing Ref.ta Ref.five_assets "A" 3) by (vm_compute; reflexivity).
  exists weights, l'. split; [reflexivity|]. split; [exact HC|]. split; [exact HA|].
  destruct (predict_weights_zero_default _ _ _ _ _ _ _ Hrun) as [_ Hin].
  split.
  - apply (Hin "C"); [repeat constructor|vm_compute; lia|by left].
  - apply (Hin "A"); [repeat constructor|vm_compute; lia|by right; right].
Defined.

Lemma predict_asset_writes_valid_rows_only_witness :
  exists m weights' l',
    Ref.four_models !! "A" = Some m /\
    predict_asset Ref.ta Ref.quiet Ref.four_models Ref.five_assets "A" Ref.sevens [] =
      (Ret weights', l') /\
    row_missing Ref.ta Ref.five_assets "A" 3 /\
    entry weights' 3 "A" = Some (Fin 7).
Proof.
  destruct (Ref.four_models !! "A") as [m|] eqn:Hm;
    [|vm_compute in Hm; discriminate Hm].
  destruct (predict_asset Ref.ta Ref.quiet Ref.four_models Ref.five_assets "A"
              Ref.sevens [])
    as [[weights'|e] l'] eqn:Hrun; [|vm_compute in Hrun; discriminate Hrun].
  assert (HA : row_missing Ref.ta Ref.five_assets "A" 3) by (vm_compute; reflexivity).
  exists m, weights', l'. split; [reflexivity|]. split; [reflexivity|].
  split; [exact HA|].
  rewrite (proj1 (predict_asset_writes_valid_rows_only _ _ _ _ _ _ _ _ _ _ Hm Hrun) 3 HA).
  reflexivity.
Defined.

Lemma predict_weights_in_unit_interval_witness :
  kneighbors_count Ref.quiet /\
  exists models l1 weights l3,
    train_model Ref.ta Ref.quiet Ref.five_assets [] = (Ret models, l1) /\
    predict_weights Ref.ta Ref.quiet models Ref.five_assets [] = (Ret weights, l3) /\
    forall t v, entry weights t "A" = Some v -> in_unit v.
Proof.
  pose proof ref_kneighbors_count as Hcount.
  split; [exact Hcount|].
  pose proof (train_model_eq Ref.ta Ref.quiet Ref.five_assets []) as Htrain.
  destruct (predict_weights Ref.ta Ref.quiet
              (foldl (train_step Ref.ta Ref.quiet Ref.five_assets) ∅
                 (asset_coords Ref.five_assets))
              Ref.five_assets [])
    as [[weights|e] l3] eqn:Hrun; [|vm_compute in Hrun; discriminate Hrun].
  eexists _, _, weights, l3. split; [exact Htrain|]. split; [exact Hrun|].
  intros t v. exact (predict_weights_in_unit_interval _ _ _ _ _ _ _ _ _ _ _
                       Hcount Htrain Hrun "A" t v).
Defined.

(** The weights of the run above, on a day with a valid row and on a day
    without. *)
Example five_assets_weights :
  let run := predict_weights Ref.ta Ref.quiet
               (Ref.models_of (train_model Ref.ta Ref.quiet Ref.five_assets []))
               Ref.five_assets [] in
  match fst run with
  | Ret weights =>
      (entry weights 65 "A", entry weights 3 "A", length <$> weights !! "E")
  | Raise _ => (None, None, None)
  end = (Some (Fin (3 # 5)), Some (Fin 0), Some 72).
Proof. vm_compute. reflexivity. Qed.

(** * Further properties of the pipeline *)

(** ** What [get_features] reads *)

Lemma ntime_sel {A} (d : DataArray A) f a : ntime d a = length (sel d f a).
Proof. unfold ntime, sel. by rewrite length_map. Qed.

Lemma series_get_features_ext lib d1 d2 a :
  sel d1 "close" a = sel d2 "close" a ->
  sel d1 "high" a = sel d2 "high" a ->
  sel d1 "low" a = sel d2 "low" a ->
  series (get_features lib d1) a = series (get_features lib d2) a.
Proof.
  intros Hclose Hhigh Hlow. rewrite !series_get_features. unfold feature_columns.
  rewrite (ntime_sel d1 "close"), (ntime_sel d2 "close").
  by rewrite Hclose, Hhigh, Hlow.
Qed.

(** X1. The feature rows of an asset are a function of the close, high and low
    series of that asset alone: other fields and other assets do not enter. *)
Theorem get_features_reads_close_high_low lib d1 d2 a :
  sel d1 "close" a = sel d2 "close" a ->
  sel d1 "high" a = sel d2 "high" a ->
  sel d1 "low" a = sel d2 "low" a ->
  series (get_features lib d1) a = series (get_features lib d2) a /\
  sel_asset (get_features lib d1) a = sel_asset (get_features lib d2) a.
Proof.
  intros Hclose Hhigh Hlow.
  pose proof (series_get_features_ext lib d1 d2 a Hclose Hhigh Hlow) as Hseries.
  split; [exact Hseries|]. unfold sel_asset. by rewrite Hseries.
Qed.

Lemma sel_concat_fields d arrays f a :
  named_column (map (fun na => (fst na, snd na a)) arrays) f = None ->
  sel (concat_fields d arrays) f a = sel d f a.
Proof.
  intros Hnew. unfold sel, concat_fields. cbn [series]. cbv zeta.
  generalize (series d a). intros l. apply list_eq. intros t.
  rewrite !list_lookup_fmap, list_lookup_imap.
  destruct (l !! t) as [entry|]; [|done]. simpl. rewrite Hnew.
  by destruct (existsb _ _).
Qed.

(** X2. The derived fields [ma_50], [ma_200] and [volatility] are appended to
    the field coordinates, and the features and the labels computed from
    the extended series are those of the loaded series. *)
Theorem add_derived_fields_keeps_features rolling_mean rolling_std lib stock_data :
  let extended := add_derived_fields rolling_mean rolling_std stock_data in
  field_coords extended =
    (field_coords stock_data ++ ["ma_50"; "ma_200"; "volatility"])%list /\
  asset_coords extended = asset_coords stock_data /\
  (forall a, series (get_features lib extended) a =
             series (get_features lib stock_data) a) /\
  (forall a, get_target_classes lib extended a =
             get_target_classes lib stock_data a).
Proof.
  intros extended. split; [reflexivity|]. split; [reflexivity|].
  assert (Hsel : forall f a,
            f = "close" \/ f = "high" \/ f = "low" ->
            sel extended f a = sel stock_data f a).
  { intros f a Hf. apply sel_concat_fields.
    destruct Hf as [->|[->| ->]]; reflexivity. }
  split.
  - intros a. apply series_get_features_ext; apply Hsel; auto.
  - intros a. unfold get_target_classes. by rewrite Hsel by auto.
Qed.

(** ** The price channel *)

Lemma nth_ffill_from_present last s t :
  isnan (nth t s NaN) = false -> nth t (ffill_from last s) NaN = nth t s NaN.
Proof.
  revert last t. induction s as [|x s IH]; intros last t Hx; simpl in *;
    [by destruct t|].
  destruct t as [|t]; [by rewrite Hx|]. by apply IH.
Qed.

Lemma ffill_from_leading_nan last s t1 :
  isnan last = true ->
  (forall t, t < t1 -> isnan (nth t s NaN) = true) ->
  forall t, t < t1 -> isnan (nth t (ffill_from last s) NaN) = true.
Proof.
  revert last t1. induction s as [|x s IH]; intros last t1 Hlast Hnan t Ht;
    simpl; [by destruct t|].
  pose proof (Hnan 0) as H0. simpl in H0.
  destruct t as [|t]; [rewrite H0 by lia; done|].
  rewrite H0 by lia. apply (IH last (pred t1)); [done| |lia].
  intros u Hu. apply (Hnan (S u)). lia.
Qed.

Lemma bfill_leading_nan s t1 x :
  nth t1 s NaN = x -> isnan x = false ->
  (forall t, t < t1 -> isnan (nth t s NaN) = true) ->
  forall t, t <= t1 -> nth t (bfill s) NaN = x.
Proof.
  revert t1. induction s as [|y s IH]; intros t1 Hx Hpresent Hnan t Ht.
  { destruct t1; simpl in Hx; subst x; discriminate. }
  destruct t1 as [|t1]; simpl in Hx.
  - assert (t = 0) by lia. subst t y. simpl. by rewrite Hpresent.
  - pose proof (Hnan 0) as H0. simpl in H0. simpl. rewrite H0 by lia.
    assert (Htail : forall u, u <= t1 -> nth u (bfill s) NaN = x).
    { apply (IH t1); [done|done|]. intros u Hu. apply (Hnan (S u)). lia. }
    destruct t as [|t]; [|apply Htail; lia].
    rewrite <- (Htail 0) by lia. by destruct (bfill s).
Qed.

Lemma bfill_all_nan s :
  (forall t, isnan (nth t s NaN) = true) ->
  forall t, isnan (nth t (bfill s) NaN) = true.
Proof.
  induction s as [|y s IH]; intros Hnan t; [by destruct t|].
  assert (Htail : forall u, isnan (nth u (bfill s) NaN) = true).
  { apply IH. intros u. apply (Hnan (S u)). }
  pose proof (Hnan 0) as H0. simpl in H0. simpl. rewrite H0.
  destruct t as [|t]; [|apply Htail].
  specialize (Htail 0). by destruct (bfill s).
Qed.

Lemma nth_fillna_missing v s t :
  t < length s -> isnan (nth t s NaN) = true -> nth t (fillna v s) NaN = v.
Proof.
  revert t. induction s as [|x s IH]; intros t Hlt Hx; simpl in *; [lia|].
  destruct t as [|t]; [by rewrite Hx|]. apply IH; [lia|done].
Qed.

Lemma ffill_from_Forall (P : float -> Prop) last s :
  P last -> Forall P s -> Forall P (ffill_from last s).
Proof.
  intros Hlast Hs. revert last Hlast.
  induction Hs as [|x s Hx _ IH]; intros last Hlast; simpl; [done|].
  destruct (isnan x); constructor; auto.
Qed.

Lemma bfill_Forall (P : float -> Prop) s :
  P NaN -> Forall P s -> Forall P (bfill s).
Proof.
  intros Hnan. induction 1 as [|x s Hx _ IH]; simpl; [done|].
  constructor; [|done]. destruct (isnan x); [|done].
  destruct IH; simpl; done.
Qed.

Lemma fillna_Forall (P : float -> Prop) v s :
  P v -> Forall (fun x => isnan x = false -> P x) s -> Forall P (fillna v s).
Proof.
  intros Hv. induction 1 as [|x s Hx _ IH]; simpl; [done|].
  constructor; [|done]. destruct (isnan x); auto.
Qed.

Lemma length_filled v s : length (fillna v (bfill (ffill s))) = length s.
Proof. unfold ffill. by rewrite length_fillna, length_bfill, length_ffill_from. Qed.

(** The cell of the price channel. *)
Lemma price_cell lib data t a :
  cell_at (get_features lib data) t "price" a =
  if (t <? ntime data a)%nat
  then Some (np_log (nth t (fillna (Fin 0) (bfill (ffill (sel data "close" a)))) NaN))
  else None.
Proof.
  rewrite cell_at_get_features. destruct (t <? ntime data a)%nat; [|done].
  f_equal. unfold read_column, feature_names, feature_columns. cbn [channel].
  change (String.eqb "trend" "price") with false.
  change (String.eqb "macd" "price") with false.
  change (String.eqb "volatility" "price") with false.
  change (String.eqb "stochastic_d" "price") with false.
  change (String.eqb "rsi" "price") with false.
  change (String.eqb "price" "price") with true. cbv iota.
  unfold Spec.log_price. change (Num NaN) with (np_log NaN). apply nth_fmap.
Qed.

Lemma lookup_lt_ntime (data : DataArray float) f a t x :
  sel data f a !! t = Some x -> (t <? ntime data a)%nat = true.
Proof.
  intros Hx%lookup_lt_Some. apply Nat.ltb_lt. by rewrite (ntime_sel data f).
Qed.

(** X3. Where the close is present, the price channel is its logarithm: the
    fills never alter a value that is there. *)
Theorem price_is_log_of_present_close lib data t a x :
  sel data "close" a !! t = Some x -> isnan x = false ->
  cell_at (get_features lib data) t "price" a = Some (np_log x).
Proof.
  intros Hx Hpresent. rewrite price_cell, (lookup_lt_ntime _ _ _ _ _ Hx).
  f_equal. f_equal. apply (nth_lookup_Some _ _ NaN) in Hx.
  assert (Hnth : isnan (nth t (sel data "close" a) NaN) = false) by congruence.
  assert (Hf : nth t (ffill (sel data "close" a)) NaN = x).
  { unfold ffill. rewrite nth_ffill_from_present; congruence. }
  assert (Hb : nth t (bfill (ffill (sel data "close" a))) NaN = x).
  { rewrite nth_bfill_present; congruence. }
  rewrite nth_fillna_present; congruence.
Qed.

(** X4. Before the first close of an asset, the price channel is the logarithm
    of that first close: the back-fill carries it to every earlier time. *)
Theorem price_before_first_close lib data t1 a x :
  sel data "close" a !! t1 = Some x -> isnan x = false ->
  (forall t y, t < t1 -> sel data "close" a !! t = Some y -> isnan y = true) ->
  forall t, t <= t1 ->
    cell_at (get_features lib data) t "price" a = Some (np_log x).
Proof.
  intros Hx Hpresent Hgap t Ht. rewrite price_cell.
  pose proof (lookup_lt_ntime _ _ _ _ _ Hx) as Hlt1. apply Nat.ltb_lt in Hlt1.
  destruct (Nat.ltb_spec t (ntime data a)) as [_|Hge]; [|lia].
  f_equal. f_equal.
  assert (Hnth1 : nth t1 (sel data "close" a) NaN = x) by by apply nth_lookup_Some.
  assert (Hnan : forall u, u < t1 -> isnan (nth u (sel data "close" a) NaN) = true).
  { intros u Hu. rewrite nth_lookup.
    destruct (sel data "close" a !! u) as [y|] eqn:Hy; [|done]. by eapply Hgap. }
  assert (Hb : nth t (bfill (ffill (sel data "close" a))) NaN = x).
  { apply (bfill_leading_nan _ t1); [| |by apply ffill_from_leading_nan|done].
    - unfold ffill. rewrite nth_ffill_from_present; congruence.
    - done. }
  rewrite nth_fillna_present; congruence.
Qed.

(** X5. An asset whose close is missing throughout has price log 0, minus
    infinity, at every time: the price channel is not missing there. *)
Theorem price_of_missing_close lib data a :
  (forall t y, sel data "close" a !! t = Some y -> isnan y = true) ->
  forall t, t < ntime data a ->
    cell_at (get_features lib data) t "price" a = Some (Num NegInf).
Proof.
  intros Hmissing t Ht. rewrite price_cell.
  destruct (Nat.ltb_spec t (ntime data a)) as [_|Hge]; [|lia].
  f_equal. rewrite nth_fillna_missing; [done| |].
  - unfold ffill.
    by rewrite length_bfill, length_ffill_from, <- (ntime_sel data "close").
  - apply bfill_all_nan. intros u.
    destruct (Nat.lt_ge_cases u (S u)) as [Hu|Hu]; [|lia].
    apply (ffill_from_leading_nan NaN _ (S u)); [done| |done].
    intros v _. rewrite nth_lookup.
    destruct (sel data "close" a !! v) as [y|] eqn:Hy; [|done]. by eapply Hmissing.
Qed.

Lemma np_log_not_missing y :
  y <> NegInf -> (forall q, y = Fin q -> (0 <= q)%Q) ->
  isnan y = false -> isnull (np_log y) = false.
Proof.
  intros Hinf Hpos Hy. destruct y as [| | |q]; try done. simpl.
  unfold Qlt_bool. destruct (Qle_bool q 0) eqn:Hle; [|done]. simpl.
  apply Qle_bool_iff in Hle. specialize (Hpos q eq_refl).
  assert (Hz : Qeq_bool q 0 = true).
  { apply Qeq_bool_iff. by apply Qle_antisym. }
  by rewrite Hz.
Qed.

(** X6. With closes that are never negative, the price channel has no missing
    value: it never makes [dropna] drop a row. *)
Theorem price_never_missing lib data a :
  (forall y, y ∈ sel data "close" a ->
     y <> NegInf /\ forall q, y = Fin q -> (0 <= q)%Q) ->
  forall t, t < ntime data a ->
    exists c, cell_at (get_features lib data) t "price" a = Some c /\
              isnull c = false.
Proof.
  intros Hclose t Ht. rewrite price_cell.
  destruct (Nat.ltb_spec t (ntime data a)) as [_|Hge]; [|lia].
  eexists. split; [reflexivity|].
  set (ok := fun y : float => isnan y = false -> isnull (np_log y) = false).
  assert (Hall : Forall (fun y => isnan y = false /\ ok y)
                   (fillna (Fin 0) (bfill (ffill (sel data "close" a))))).
  { apply fillna_Forall; [split; [done|by intros _]|].
    eapply Forall_impl;
      [apply (bfill_Forall ok), (ffill_from_Forall ok);
         [by intros ?|by intros ?|]|].
    - apply Forall_forall. intros y Hy Hnan.
      destruct (Hclose y Hy) as [Hinf Hpos]. by apply np_log_not_missing.
    - intros y Hy Hnan. split; [done|exact Hy]. }
  rewrite Forall_forall in Hall.
  destruct (Hall (nth t (fillna (Fin 0) (bfill (ffill (sel data "close" a)))) NaN))
    as [Hnan Hok].
  - apply list_elem_of_In, nth_In.
    by rewrite length_filled, <- (ntime_sel data "close").
  - by apply Hok.
Qed.

(** ** The labels *)

(** X7. Whatever the shift of the indicator library does, [get_target_classes]
    gives one label per time step, each 0 or 1, and the label is 0 wherever
    the close is missing. *)
Theorem get_target_classes_total lib data a :
  length (get_target_classes lib data a) = ntime data a /\
  Forall binary (get_target_classes lib data a) /\
  forall t y, sel data "close" a !! t = Some y -> isnan y = true ->
    get_target_classes lib data a !! t = Some 0%Z.
Proof.
  split; [apply length_labels|]. split; [apply get_target_classes_binary|].
  intros t y Hy Hnan. unfold get_target_classes, xr_where_gt.
  rewrite list_lookup_imap, Hy. simpl.
  destruct y; try discriminate. by destruct (nth t _ NaN).
Qed.

(** ** Dropping and aligning *)

Lemma NoDup_time_values_dropna {A} `{IsNull A} (x : list A) :
  NoDup (time_values (dropna x)).
Proof. rewrite time_values_dropna. apply NoDup_ListNoDup, List.NoDup_filter, seq_NoDup. Qed.

Lemma lookup_time_values_dropna {A} `{IsNull A} (x : list A) i t :
  time_values (dropna x) !! i = Some t ->
  exists r, dropna x !! i = Some (t, r) /\ x !! t = Some r /\ isnull r = false.
Proof.
  unfold time_values. rewrite list_lookup_fmap.
  intros ([u r] & Hi & Heq)%fmap_Some. simpl in Heq. subst t.
  exists r. split; [done|].
  apply (In_dropna x (u, r)), list_elem_of_In. by eapply list_elem_of_lookup_2.
Qed.

(** X8. The samples [train_model] hands to [fit] pair each valid feature row
    with the label of the same time step: as many labels as rows, and the
    i-th of each is the one at the i-th valid time. *)
Theorem training_pairs_share_timestamps lib data a :
  length (feature_for_learn lib data a) = length (target_for_learn lib data a) /\
  forall i t, time_values (features_cur lib data a) !! i = Some t ->
    feature_for_learn lib data a !! i = sel_asset (get_features lib data) a !! t /\
    target_for_learn lib data a !! i = get_target_classes lib data a !! t.
Proof.
  pose proof (labels_rows_length lib data a) as Hlen.
  split.
  { unfold feature_for_learn, target_for_learn, values, target_cur, features_cur.
    rewrite !length_map. by destruct (align_inner_count _ _ Hlen) as [-> ->]. }
  intros i t Hi. split.
  - unfold feature_for_learn, target_cur, features_cur.
    rewrite (align_inner_rows _ _ Hlen).
    apply lookup_time_values_dropna in Hi as (r & Hr & Hrow & _).
    unfold values. by rewrite list_lookup_fmap, Hr, Hrow.
  - unfold features_cur in Hi. rewrite <- (align_inner_labels _ _ Hlen) in Hi.
    unfold time_values in Hi. rewrite list_lookup_fmap in Hi.
    apply fmap_Some in Hi as ([u v] & Hp & Heq). simpl in Heq. subst t.
    unfold target_for_learn, target_cur, features_cur, values.
    rewrite list_lookup_fmap, Hp. simpl.
    apply list_elem_of_lookup_2, list_elem_of_In in Hp.
    unfold align_inner in Hp. cbn [fst] in Hp.
    apply filter_In in Hp as [Hp _]. apply In_dropna in Hp as [Hp _].
    simpl in Hp. by rewrite Hp.
Qed.

(** ** The models and the log of [train_model] *)

Lemma feature_for_learn_rows lib data a :
  feature_for_learn lib data a = values (features_cur lib data a).
Proof.
  unfold feature_for_learn, target_cur, features_cur.
  by rewrite (align_inner_rows _ _ (labels_rows_length lib data a)).
Qed.

Lemma length_feature_for_learn lib data a :
  length (feature_for_learn lib data a) = length (features_cur lib data a).
Proof. rewrite feature_for_learn_rows. apply length_map. Qed.

Lemma length_target_for_learn lib data a :
  length (target_for_learn lib data a) = length (features_cur lib data a).
Proof.
  unfold target_for_learn, values, target_cur, features_cur. rewrite length_map.
  apply (align_inner_count _ _ (labels_rows_length lib data a)).
Qed.

Lemma features_cur_rows lib data a r :
  In r (values (features_cur lib data a)) -> length r = 7 /\ isnull r = false.
Proof.
  unfold values, features_cur. rewrite in_map_iff.
  intros ([t r'] & <- & [Hrow Hvalid]%In_dropna). simpl in *. split; [|done].
  unfold sel_asset in Hrow. rewrite list_lookup_fmap in Hrow.
  apply fmap_Some in Hrow as (entry & _ & ->). by rewrite length_map.
Qed.

Lemma trained_Some lib env data a m :
  trained lib env data a = Some m ->
  m = mkKNN 5 (feature_for_learn lib data a) (target_for_learn lib data a) /\
  10 <= length (features_cur lib data a).
Proof.
  unfold trained.
  destruct (Nat.ltb_spec (length (time_values (features_cur lib data a))) 10)
    as [|Hge]; [done|].
  destruct (fit_raises env a _ _); [done|]. intros [= <-].
  split; [done|]. by rewrite length_time_values in Hge.
Qed.

(** X9. Every model in the mapping [train_model] returns belongs to an asset of
    the input, has five neighbours, and was fitted on at least ten rows of
    seven cells, none of them missing, with one binary label per row. *)
Theorem train_model_models_are_fitted lib env data l models l' a m :
  train_model lib env data l = (Ret models, l') ->
  models !! a = Some m ->
  a ∈ asset_coords data /\
  n_neighbors m = 5 /\
  10 <= length (fit_X m) /\
  length (fit_y m) = length (fit_X m) /\
  Forall (fun r => length r = 7 /\ isnull r = false) (fit_X m) /\
  Forall binary (fit_y m).
Proof.
  intros Hrun Hm. rewrite (train_model_lookup lib env data l models l' a Hrun) in Hm.
  destruct (decide (a ∈ asset_coords data)) as [Ha|]; [|done].
  apply trained_Some in Hm as [-> Hrows]. simpl.
  rewrite length_feature_for_learn, length_target_for_learn.
  repeat split; try done.
  - rewrite feature_for_learn_rows. apply Forall_forall.
    intros r Hr%list_elem_of_In. by apply (features_cur_rows lib data a).
  - apply target_for_learn_binary.
Qed.

Lemma length_omap_le {A B} (f : A -> option B) (xs : list A) :
  length (omap f xs) <= length xs.
Proof.
  induction xs as [|x xs IH]; [done|].
  change (omap f (x :: xs))
    with (match f x with Some y => y :: omap f xs | None => omap f xs end).
  destruct (f x); simpl; lia.
Qed.

(** X10. No exception raised by [model.fit] leaves [train_model]: whatever
    the fits of the assets raise, the loop runs to its end and a mapping is
    returned.  What it adds to the log is at most one record per asset, each
    the failure of the fit of an asset with at least ten rows, and nothing
    when no fit raises. *)
Theorem train_model_returns_and_logs_failures lib env data l :
  exists models new,
    train_model lib env data l = (Ret models, (l ++ new)%list) /\
    length new <= length (asset_coords data) /\
    (forall r, In r new ->
       fst r = "model training failed" /\
       exists a, a ∈ asset_coords data /\
                 10 <= length (features_cur lib data a) /\
                 fit_raises env a (feature_for_learn lib data a)
                   (target_for_learn lib data a) = Some (snd r)) /\
    ((forall a, a ∈ asset_coords data ->
        fit_raises env a (feature_for_learn lib data a)
          (target_for_learn lib data a) = None) ->
     new = []).
Proof.
  eexists _, _. split; [apply train_model_eq|]. split; [apply length_omap_le|].
  split.
  - intros r Hr%list_elem_of_In%list_elem_of_omap. destruct Hr as (a & Ha & Hfail).
    unfold train_failure in Hfail.
    destruct (Nat.ltb_spec (length (time_values (features_cur lib data a))) 10)
      as [|Hge]; [done|].
    destruct (fit_raises env a _ _) as [e|] eqn:Hfit; [|done].
    injection Hfail as <-. split; [done|]. exists a.
    rewrite length_time_values in Hge. by rewrite Hfit.
  - intros Hquiet. induction (asset_coords data) as [|a assets IH]; [done|].
    simpl. unfold train_failure at 1. rewrite Hquiet by left.
    destruct (_ <? _)%nat; apply IH; intros b Hb; apply Hquiet; by right.
Qed.

(** ** The global training loop *)

Lemma train_asset_global_eq lib env data a models l :
  train_asset_global env (get_features lib data) (get_target_classes lib data)
    a models l =
  if (length (time_values (features_cur lib data a)) <? 10)%nat
  then (Ret models, l)
  else match fit_raises env a (feature_for_learn lib data a)
               (target_for_learn lib data a) with
       | None =>
           (Ret (<[a := mkKNN 5 (feature_for_learn lib data a)
                           (target_for_learn lib data a)]> models), l)
       | Some KeyboardInterrupt => (Raise KeyboardInterrupt, l)
       | Some (Exception what) =>
           (Ret models,
            (l ++ [(String.append "Model training failed for asset: " a,
                    Exception what)])%list)
       end.
Proof.
  unfold train_asset_global.
  fold (features_cur lib data a). fold (target_cur lib data a).
  unfold align_inner.
  change (values (List.filter (fun p => has_time (target_cur lib data a) (fst p))
                    (features_cur lib data a)))
    with (feature_for_learn lib data a).
  change (values (List.filter (fun p => has_time (features_cur lib data a) (fst p))
                    (target_cur lib data a)))
    with (target_for_learn lib data a).
  destruct (length (time_values (features_cur lib data a)) <? 10)%nat; [done|].
  unfold try_except, mbind, fit, get_model. cbn [n_neighbors].
  by destruct (fit_raises env a _ _) as [[|what]|].
Qed.

Lemma for_each_global_train lib env data assets models l1 l2 :
  (forall a, a ∈ assets ->
     fit_raises env a (feature_for_learn lib data a) (target_for_learn lib data a)
     <> Some KeyboardInterrupt) ->
  map snd l1 = map snd l2 ->
  let global :=
    for_each assets
      (train_asset_global env (get_features lib data) (get_target_classes lib data))
      models l1 in
  let rolling :=
    for_each assets
      (train_asset env (get_features lib data) (get_target_classes lib data))
      models l2 in
  fst global = fst rolling /\ map snd (snd global) = map snd (snd rolling).
Proof.
  revert models l1 l2. induction assets as [|a assets IH];
    intros models l1 l2 Hquiet Hlogs; simpl; [done|].
  assert (Hrest : forall b, b ∈ assets ->
            fit_raises env b (feature_for_learn lib data b)
              (target_for_learn lib data b) <> Some KeyboardInterrupt).
  { intros b Hb. apply Hquiet. by right. }
  pose proof (Hquiet a ltac:(left)) as Ha.
  unfold mbind. rewrite train_asset_global_eq, train_asset_eq.
  unfold train_step, trained, train_failure.
  destruct (length (time_values (features_cur lib data a)) <? 10)%nat.
  { simpl. rewrite app_nil_r. by apply IH. }
  destruct (fit_raises env a _ _) as [[|what]|]; [done| |]; simpl.
  - apply IH; [done|]. rewrite !map_app. f_equal. exact Hlogs.
  - rewrite app_nil_r. by apply IH.
Qed.

(** X11. When no fit is interrupted, the global loop builds the mapping
    [train_model] builds and logs the same exceptions in the same order. *)
Theorem global_training_agrees_with_train_model lib env data l :
  (forall a, a ∈ asset_coords data ->
     fit_raises env a (feature_for_learn lib data a) (target_for_learn lib data a)
     <> Some KeyboardInterrupt) ->
  fst (global_training lib env data l) = fst (train_model lib env data l) /\
  map snd (snd (global_training lib env data l)) =
  map snd (snd (train_model lib env data l)).
Proof. intros Hquiet. by apply for_each_global_train. Qed.

(** X12. An interrupt during the fit of an asset with at least ten rows aborts
    the global loop: it propagates as it is. *)
Theorem global_training_propagates_interrupts lib env data a l :
  a ∈ asset_coords data ->
  10 <= length (features_cur lib data a) ->
  fit_raises env a (feature_for_learn lib data a) (target_for_learn lib data a)
    = Some KeyboardInterrupt ->
  fst (global_training lib env data l) = Raise KeyboardInterrupt.
Proof.
  intros Ha Hrows Hfit. unfold global_training.
  generalize (∅ : gmap asset KNeighborsRegressor). intros models.
  revert models l Ha. induction (asset_coords data) as [|b assets IH];
    intros models l Ha; [by apply elem_of_nil in Ha|].
  simpl. unfold mbind. rewrite train_asset_global_eq.
  destruct (decide (b = a)) as [->|Hne].
  - rewrite Hfit.
    destruct (Nat.ltb_spec (length (time_values (features_cur lib data a))) 10)
      as [Hlt|_]; [rewrite length_time_values in Hlt; lia|done].
  - assert (Ha' : a ∈ assets) by (apply elem_of_cons in Ha as [->|Ha]; done).
    destruct (_ <? _)%nat; [by apply IH|].
    destruct (fit_raises env b _ _) as [[|what]|]; [done|by apply IH..].
Qed.

(** ** Exceptions in [predict_weights] *)

Lemma predict_log a env m X l r l' : predict env a m X l = (r, l') -> l' = l.
Proof.
  unfold predict. destruct (predict_raises env a m X); [by intros [= _ <-]|].
  destruct (_ <? _)%nat; [by intros [= _ <-]|].
  destruct (mapM _ X); by intros [= _ <-].
Qed.

Lemma loc_assign_log weights a times vals l r l' :
  loc_assign weights a times vals l = (r, l') -> l' = l.
Proof.
  unfold loc_assign. destruct (weights !! a); [|by intros [= _ <-]].
  destruct (negb (forallb _ times)); [by intros [= _ <-]|].
  destruct (negb (_ =? _)%nat); by intros [= _ <-].
Qed.

(** What an iteration of [predict_weights] can end in: its log is the log
    before it, with at most the record of a failed prediction after it, and
    the only exception that leaves it is the interrupt. *)
Lemma predict_asset_outcome lib env models data b weights l r l' :
  predict_asset lib env models data b weights l = (r, l') ->
  (r = Raise KeyboardInterrupt /\ l' = l) \/
  (exists weights', r = Ret weights' /\
     (l' = l \/
      exists what, weights' = weights /\
        l' = (l ++ [("model prediction failed", Exception what)])%list)).
Proof.
  unfold predict_asset.
  destruct (models !! b) as [m|]; [|intros [= <- <-]; right; eauto].
  destruct (_ <? 1)%nat; [intros [= <- <-]; right; eauto|].
  unfold try_except, mbind.
  destruct (predict env b m _ l) as [[ys|e] l1] eqn:Hp;
    apply predict_log in Hp as ->.
  - destruct (loc_assign weights b _ ys l) as [[w1|e] l2] eqn:Hl;
      apply loc_assign_log in Hl as ->.
    + intros [= <- <-]. right. eauto.
    + destruct e as [|what]; simpl; intros [= <- <-]; [by left|].
      right. eexists. split; [done|]. right. eauto.
  - destruct e as [|what]; simpl; intros [= <- <-]; [by left|].
    right. eexists. split; [done|]. right. eauto.
Qed.

Lemma for_each_Raise_inv {A S} (Q : exn -> Prop) (body : A -> S -> M S) xs :
  (forall x s l e l', body x s l = (Raise e, l') -> Q e) ->
  forall s l e l', for_each xs body s l = (Raise e, l') -> Q e.
Proof.
  intros Hbody. induction xs as [|x xs IH]; intros s l e l'; simpl; [discriminate|].
  unfold mbind. destruct (body x s l) as [[s1|e1] l1] eqn:Hx.
  - apply IH.
  - intros [= <- _]. by eapply Hbody.
Qed.

(** X13. [predict_weights] raises nothing but the user's interrupt: every other
    exception of a prediction or of the assignment is handled inside. *)
Theorem predict_weights_raises_only_interrupts lib env models data l e :
  fst (predict_weights lib env models data l) = Raise e -> e = KeyboardInterrupt.
Proof.
  destruct (predict_weights lib env models data l) as [r l'] eqn:Hrun. simpl.
  intros ->. unfold predict_weights in Hrun.
  eapply (for_each_Raise_inv (fun e => e = KeyboardInterrupt)); [|exact Hrun].
  intros b w l1 e1 l1' Hb.
  apply predict_asset_outcome in Hb as [[[= ->] _]|(w' & [=] & _)]. done.
Qed.

(** X14. An interrupt during the prediction of an asset that has a model and a
    valid row aborts [predict_weights]: it propagates as it is. *)
Theorem predict_weights_propagates_interrupts lib env models data a m l :
  a ∈ asset_coords data ->
  models !! a = Some m ->
  features_cur lib data a <> [] ->
  predict_raises env a m (values (features_cur lib data a)) = Some KeyboardInterrupt ->
  fst (predict_weights lib env models data l) = Raise KeyboardInterrupt.
Proof.
  intros Ha Hm Hrows Hraise. unfold predict_weights.
  generalize (zeros_like (ntime data) (asset_coords data)). intros weights.
  revert weights l Ha. induction (asset_coords data) as [|b assets IH];
    intros weights l Ha; [by apply elem_of_nil in Ha|].
  simpl. unfold mbind.
  destruct (predict_asset lib env models data b weights l) as [[w1|e] l1] eqn:Hb.
  - apply IH. apply elem_of_cons in Ha as [->|Ha]; [|done].
    by rewrite (predict_asset_interrupt lib env models data b m weights l) in Hb.
  - by apply predict_asset_outcome in Hb as [[[= ->] _]|(w' & [=] & _)].
Qed.

Lemma for_each_log_In {A S} (body : A -> S -> M S) (a : A) (r : log_record) xs :
  (forall x s l s' l', body x s l = (Ret s', l') -> exists new, l' = (l ++ new)%list) ->
  (forall s l s' l', body a s l = (Ret s', l') -> In r l') ->
  a ∈ xs ->
  forall s l s' l', for_each xs body s l = (Ret s', l') -> In r l'.
Proof.
  intros Hgrow Ha.
  assert (Hkeep : forall ys s l s' l', In r l ->
            for_each ys body s l = (Ret s', l') -> In r l').
  { induction ys as [|y ys IH]; intros s l s' l' Hr; simpl.
    - by intros [= _ <-].
    - unfold mbind. destruct (body y s l) as [[s1|e] l1] eqn:Hy; [|discriminate].
      apply IH. destruct (Hgrow _ _ _ _ _ Hy) as [new ->].
      apply in_or_app. by left. }
  induction xs as [|x xs IH]; intros Hin s l s' l'; [by apply elem_of_nil in Hin|].
  simpl. unfold mbind.
  destruct (body x s l) as [[s1|e] l1] eqn:Hx; [|discriminate].
  apply elem_of_cons in Hin as [<-|Hin].
  - apply Hkeep. by eapply Ha.
  - by apply IH.
Qed.

Lemma predict_asset_failed lib env models data a m what weights l :
  models !! a = Some m ->
  features_cur lib data a <> [] ->
  predict_raises env a m (values (features_cur lib data a)) = Some (Exception what) ->
  predict_asset lib env models data a weights l =
  (Ret weights, (l ++ [("model prediction failed", Exception what)])%list).
Proof.
  intros Hm Hrows Hraise. unfold predict_asset. rewrite Hm.
  fold (features_cur lib data a).
  destruct (Nat.ltb_spec (length (time_values (features_cur lib data a))) 1)
    as [Hlt|_].
  { rewrite length_time_values in Hlt.
    destruct (features_cur lib data a); [done|simpl in Hlt; lia]. }
  unfold try_except, mbind, predict. by rewrite Hraise.
Qed.

(** X15. When the prediction of an asset fails with an exception other than the
    interrupt, the failure is logged and the weights of the asset stay at
    zero over the whole window. *)
Theorem predict_weights_failure_leaves_zero
    lib env models data a m what l weights l' :
  predict_weights lib env models data l = (Ret weights, l') ->
  a ∈ asset_coords data ->
  models !! a = Some m ->
  features_cur lib data a <> [] ->
  predict_raises env a m (values (features_cur lib data a)) = Some (Exception what) ->
  In ("model prediction failed", Exception what) l' /\
  forall t, t < ntime data a -> entry weights t a = Some (Fin 0).
Proof.
  intros Hrun Ha Hm Hrows Hraise. unfold predict_weights in Hrun. split.
  - eapply (for_each_log_In (predict_asset lib env models data) a); [| |exact Ha|exact Hrun].
    + intros b w l1 w1 l1' Hb.
      apply predict_asset_outcome in Hb as [[[=] _]|(w' & _ & [->|(? & _ & ->)])].
      * exists []. by rewrite app_nil_r.
      * eauto.
    + intros w l1 w1 l1'.
      rewrite (predict_asset_failed lib env models data a m what) by done.
      intros [= _ <-]. apply in_or_app. right. by left.
  - intros t Ht.
    assert (Hsame : entry weights t a =
                    entry (zeros_like (ntime data) (asset_coords data)) t a).
    { eapply (for_each_Ret_inv
                (fun w => entry w t a =
                          entry (zeros_like (ntime data) (asset_coords data)) t a));
        [|exact Hrun|done].
      intros b w l1 w1 l1' Hb <-. destruct (decide (a = b)) as [<-|Hne].
      - rewrite (predict_asset_failed lib env models data a m what) in Hb by done.
        by injection Hb as <- _.
      - eapply predict_asset_frame; [exact Hb|by left]. }
    rewrite Hsame. unfold entry. rewrite lookup_zeros_like, decide_True by done.
    simpl. by apply lookup_replicate_2.
Qed.

(** ** What [predict_weights] writes *)

(** A time that is assigned takes the value that comes with it. *)
Lemma set_times_lookup_in row times vals i t :
  NoDup times -> length times = length vals ->
  times !! i = Some t -> t < length row ->
  set_times row times vals !! t = vals !! i.
Proof.
  revert row vals i. induction times as [|t0 ts IH];
    intros row vals i Hnd Hlen Hi Ht; [done|].
  destruct vals as [|v0 vs]; [discriminate|].
  apply NoDup_cons in Hnd as [Hfresh Hnd].
  change (set_times row (t0 :: ts) (v0 :: vs))
    with (set_times (<[t0 := v0]> row) ts vs).
  destruct i as [|i]; simpl in Hi.
  - injection Hi as ->. rewrite set_times_lookup_other.
    + by apply list_lookup_insert_eq.
    + by rewrite <- list_elem_of_In.
  - change ((v0 :: vs) !! S i) with (vs !! i).
    apply IH; try done; [simpl in Hlen; lia|by rewrite length_insert].
Qed.

Lemma predict_log_independent env a m X l ys l' l2 :
  predict env a m X l = (Ret ys, l') -> predict env a m X l2 = (Ret ys, l2).
Proof.
  unfold predict. destruct (predict_raises env a m X); [discriminate|].
  destruct (_ <? _)%nat; [discriminate|].
  destruct (mapM _ X); [|discriminate]. by intros [= <- _].
Qed.

Lemma length_predict env a m X l ys l' :
  predict env a m X l = (Ret ys, l') -> length ys = length X.
Proof. intros (_ & Hys & _)%predict_Ret. symmetry. by eapply length_mapM. Qed.

(** An iteration whose prediction returns assigns it at the valid times. *)
Lemma predict_asset_assigns lib env models data a m ys row weights l :
  models !! a = Some m ->
  features_cur lib data a <> [] ->
  predict env a m (values (features_cur lib data a)) l = (Ret ys, l) ->
  weights !! a = Some row -> length row = ntime data a ->
  predict_asset lib env models data a weights l =
  (Ret (<[a := set_times row (time_values (features_cur lib data a)) ys]> weights), l).
Proof.
  intros Hm Hrows Hp Hrow Hlen. unfold predict_asset. rewrite Hm.
  fold (features_cur lib data a).
  destruct (Nat.ltb_spec (length (time_values (features_cur lib data a))) 1)
    as [Hlt|_].
  { rewrite length_time_values in Hlt.
    destruct (features_cur lib data a); [done|simpl in Hlt; lia]. }
  unfold try_except, mbind. rewrite Hp. unfold loc_assign. rewrite Hrow.
  assert (Hin : forallb (fun t => t <? length row)%nat
                  (time_values (features_cur lib data a)) = true).
  { apply forallb_forall. intros t Ht. apply Nat.ltb_lt. rewrite Hlen.
    unfold features_cur in Ht. apply In_time_values_dropna, valid_at_lt in Ht.
    by rewrite length_rows in Ht. }
  rewrite Hin. simpl.
  assert (Hshape : (length (time_values (features_cur lib data a)) =? length ys)%nat
                   = true).
  { apply Nat.eqb_eq. rewrite (length_predict _ _ _ _ _ _ _ Hp).
    unfold time_values, values. by rewrite !length_map. }
  by rewrite Hshape.
Qed.

Lemma window_shape_zeros data :
  window_shape data (zeros_like (ntime data) (asset_coords data)).
Proof.
  intros a Ha. rewrite lookup_zeros_like, decide_True by done.
  eexists. split; [done|]. apply length_replicate.
Qed.

Lemma window_shape_step lib env models data b weights l weights' l' :
  predict_asset lib env models data b weights l = (Ret weights', l') ->
  window_shape data weights -> window_shape data weights'.
Proof.
  intros Hb Hshape a Ha. destruct (Hshape a Ha) as (row & Hrow & Hlen).
  pose proof (predict_asset_shape lib env models data b weights l weights' l' Hb a)
    as Hsame.
  rewrite Hrow in Hsame. destruct (weights' !! a) as [row'|]; [|done].
  exists row'. split; [done|]. simpl in Hsame. injection Hsame as ->. done.
Qed.

(** X16. Where a prediction was made, the weights hold it: for an asset whose
    model returns the predictions [ys] on its valid rows, the entry at the
    i-th valid time is the i-th prediction. *)
Theorem predict_weights_holds_predictions lib env models data a m ys l weights l' :
  predict_weights lib env models data l = (Ret weights, l') ->
  a ∈ asset_coords data ->
  models !! a = Some m ->
  predict env a m (values (features_cur lib data a)) [] = (Ret ys, []) ->
  forall i t, time_values (features_cur lib data a) !! i = Some t ->
    entry weights t a = ys !! i.
Proof.
  intros Hrun Ha Hm Hp i t Hi. unfold predict_weights in Hrun.
  assert (Hrows : features_cur lib data a <> []).
  { intros Hnil. by rewrite Hnil in Hi. }
  assert (Ht : t < ntime data a).
  { apply list_elem_of_lookup_2, list_elem_of_In in Hi. unfold features_cur in Hi.
    apply In_time_values_dropna, valid_at_lt in Hi. by rewrite length_rows in Hi. }
  set (written := fun w : gmap asset (list float) => entry w t a = ys !! i).
  assert (Hloop : forall xs w l0 w' l0',
            for_each xs (predict_asset lib env models data) w l0 = (Ret w', l0') ->
            window_shape data w -> written w \/ a ∈ xs -> written w').
  { induction xs as [|b xs IH]; intros w l0 w' l0'; simpl.
    - intros [= <- _] _ [Hw|Hin]; [done|by apply elem_of_nil in Hin].
    - unfold mbind.
      destruct (predict_asset lib env models data b w l0) as [[w1|e] l1] eqn:Hb;
        [|discriminate].
      intros Hrest Hshape Hcase. apply (IH _ _ _ _ Hrest).
      { by eapply window_shape_step. }
      destruct (decide (a = b)) as [<-|Hne].
      + left. destruct (Hshape a Ha) as (row & Hrow & Hlen).
        rewrite (predict_asset_assigns lib env models data a m ys row) in Hb;
          try done; [|by eapply predict_log_independent].
        injection Hb as <- _. unfold written, entry.
        rewrite lookup_insert_eq. simpl. apply set_times_lookup_in; try done.
        * apply NoDup_time_values_dropna.
        * rewrite (length_predict _ _ _ _ _ _ _ Hp).
          unfold time_values, values. by rewrite !length_map.
        * lia.
      + destruct Hcase as [Hw|Hin].
        * left. unfold written. rewrite <- Hw.
          eapply predict_asset_frame; [exact Hb|by left].
        * right. by apply elem_of_cons in Hin as [->|Hin]. }
  eapply Hloop; [exact Hrun|apply window_shape_zeros|by right].
Qed.

(** ** The values of the weights *)

Lemma mean_labels_fifths ys :
  length ys = 5 -> Forall binary ys -> mean_labels ys ∈ fifths.
Proof.
  intros Hlen Hbin. pose proof (sum_binary ys Hbin) as Hsum.
  unfold mean_labels. rewrite Hlen in *.
  assert (Hcases : foldr Z.add 0%Z ys ∈ [0; 1; 2; 3; 4; 5]%Z).
  { set (s := foldr Z.add 0%Z ys) in *.
    assert (s = 0 \/ s = 1 \/ s = 2 \/ s = 3 \/ s = 4 \/ s = 5)%Z
      as [->|[->|[->|[->|[->| ->]]]]] by lia; repeat constructor. }
  revert Hcases. generalize (foldr Z.add 0%Z ys). intros s Hs.
  repeat (apply elem_of_cons in Hs as [->|Hs]; [vm_compute; repeat constructor|]).
  by apply elem_of_nil in Hs.
Qed.

Lemma predict_asset_Forall (P : float -> Prop) lib env models data b weights l
    weights' l' :
  (forall m x v, models !! b = Some m -> n_neighbors m <= length (fit_X m) ->
     predict_row env m x = Some v -> P v) ->
  predict_asset lib env models data b weights l = (Ret weights', l') ->
  (forall a row, weights !! a = Some row -> Forall P row) ->
  forall a row, weights' !! a = Some row -> Forall P row.
Proof.
  intros Hrow
    [->|(m & row0 & ys & Hm & Hrow0 & _ & Hfit & Hys & ->)]%predict_asset_Ret Hw a row;
    [apply Hw|].
  destruct (decide (a = b)) as [->|Hne].
  - rewrite lookup_insert_eq. intros [= <-].
    apply set_times_Forall; [by eapply Hw|].
    apply mapM_Some_1 in Hys. apply Forall_forall. intros v Hv.
    destruct (proj1 (list_elem_of_lookup _ _) Hv) as [j Hj].
    destruct (Forall2_lookup_r _ _ _ _ _ Hys Hj) as (x & _ & Hx).
    by eapply Hrow.
  - rewrite lookup_insert_ne by done. apply Hw.
Qed.

(** X17. With models that [train_model] returned, every entry of the weights is
    one of 0, 1/5, 2/5, 3/5, 4/5 and 1: the mean of five binary labels. *)
Theorem predict_weights_in_fifths
    lib env_train env train_data l0 models l1 data l2 weights l3 :
  kneighbors_count env ->
  train_model lib env_train train_data l0 = (Ret models, l1) ->
  predict_weights lib env models data l2 = (Ret weights, l3) ->
  forall a t v, entry weights t a = Some v -> v ∈ fifths.
Proof.
  intros Hcount Htrain Hrun a t v Hv.
  assert (Hall : forall b row, weights !! b = Some row ->
                               Forall (fun v => v ∈ fifths) row).
  { eapply (for_each_Ret_inv
              (fun w => forall b row, w !! b = Some row ->
                                      Forall (fun v => v ∈ fifths) row));
      [|exact Hrun|].
    - intros b w l w' l' Hb Hw.
      eapply (predict_asset_Forall (fun v => v ∈ fifths)); [|exact Hb|exact Hw].
      intros m x v0 Hm Hfit. unfold predict_row.
      intros (ys & Hys & ->)%fmap_Some.
      rewrite (train_model_lookup lib env_train train_data l0 models l1 b Htrain)
        in Hm.
      destruct (decide (b ∈ asset_coords train_data)); [|done].
      apply trained_Some in Hm as [-> _]. simpl in *.
      apply mean_labels_fifths.
      + apply length_mapM in Hys. by rewrite Hcount in Hys.
      + apply mapM_Some_1 in Hys. apply Forall_forall. intros y Hy.
        destruct (proj1 (list_elem_of_lookup _ _) Hy) as [j Hj].
        destruct (Forall2_lookup_r _ _ _ _ _ Hys Hj) as (k & _ & Hk).
        pose proof (target_for_learn_binary lib train_data b) as Hbin.
        rewrite Forall_forall in Hbin. apply Hbin.
        by eapply list_elem_of_lookup_2.
    - intros b row. rewrite lookup_zeros_like.
      destruct (decide (b ∈ asset_coords data)); [|done]. intros [= <-].
      apply Forall_replicate. left. }
  unfold entry in Hv. destruct (weights !! a) as [row|] eqn:Hrow; [|done].
  simpl in Hv. specialize (Hall a row Hrow). rewrite Forall_forall in Hall.
  apply Hall. by eapply list_elem_of_lookup_2.
Qed.

(** ** Training, then predicting *)

(** X18. With models that [train_model] returned, a [predict] that does not
    raise and a neighbour search that returns training samples,
    [predict_weights] returns its weights and logs nothing: no prediction
    fails for want of training samples. *)
Theorem predict_weights_after_train_model_succeeds
    lib env_train env train_data l0 models l1 data l :
  train_model lib env_train train_data l0 = (Ret models, l1) ->
  predict_quiet env -> kneighbors_in_range env ->
  exists weights, predict_weights lib env models data l = (Ret weights, l).
Proof.
  intros Htrain Hquiet Hrange. unfold predict_weights.
  assert (Hpredict : forall b m, models !! b = Some m ->
            exists ys, predict env b m (values (features_cur lib data b)) l
                       = (Ret ys, l)).
  { intros b m Hm.
    rewrite (train_model_lookup lib env_train train_data l0 models l1 b Htrain) in Hm.
    destruct (decide (b ∈ asset_coords train_data)); [|done].
    apply trained_Some in Hm as [-> Hrows]. unfold predict. rewrite Hquiet.
    cbn [fit_X n_neighbors fit_y].
    destruct (Nat.ltb_spec (length (feature_for_learn lib train_data b)) 5)
      as [Hlt|_]; [rewrite length_feature_for_learn in Hlt; lia|].
    destruct (mapM _ (values (features_cur lib data b))) as [ys|] eqn:Hys; [eauto|].
    exfalso. assert (Hsome : is_Some (mapM
      (predict_row env (mkKNN 5 (feature_for_learn lib train_data b)
                              (target_for_learn lib train_data b)))
      (values (features_cur lib data b)))); [|rewrite Hys in Hsome; by destruct Hsome].
    apply mapM_is_Some_2, Forall_forall. intros x _. unfold compose, predict_row.
    apply fmap_is_Some, mapM_is_Some_2. cbn [fit_X n_neighbors fit_y].
    eapply Forall_impl;
      [apply Hrange; rewrite length_feature_for_learn; lia|].
    intros j Hj. simpl.
    apply lookup_lt_is_Some.
    by rewrite length_target_for_learn, <- length_feature_for_learn. }
  pose proof (window_shape_zeros data) as Hshape. revert Hshape.
  generalize (zeros_like (ntime data) (asset_coords data)). intros weights.
  assert (Hsub : forall b, b ∈ asset_coords data -> b ∈ asset_coords data) by done.
  revert weights Hsub. generalize (asset_coords data) at 1 3. intros xs.
  induction xs as [|b xs IH]; intros weights Hsub Hshape; simpl; [by eexists|].
  unfold mbind.
  assert (Hstep : exists w1, predict_asset lib env models data b weights l
                             = (Ret w1, l)).
  { destruct (models !! b) as [m|] eqn:Hm;
      [|unfold predict_asset; rewrite Hm; by eexists].
    destruct (features_cur lib data b) as [|p fc] eqn:Hfc.
    - unfold predict_asset. rewrite Hm. fold (features_cur lib data b).
      rewrite Hfc. by eexists.
    - destruct (Hpredict b m Hm) as [ys Hys].
      destruct (Hshape b (Hsub b ltac:(left))) as (row & Hrow & Hlen).
      eexists. eapply predict_asset_assigns; eauto. by rewrite Hfc. }
  destruct Hstep as [w1 Hb]. rewrite Hb. apply IH.
  - intros c Hc. apply Hsub. by right.
  - by eapply window_shape_step.
Qed.

(** ** The further properties on concrete inputs *)

Lemma get_features_reads_close_high_low_witness :
  sel Ref.five_assets "open" "A" <> sel Ref.only_asset_A "open" "A" /\
  sel Ref.five_assets "close" "B" <> sel Ref.only_asset_A "close" "B" /\
  series (get_features Ref.ta Ref.five_assets) "A" =
  series (get_features Ref.ta Ref.only_asset_A) "A" /\
  sel_asset (get_features Ref.ta Ref.five_assets) "A" =
  sel_asset (get_features Ref.ta Ref.only_asset_A) "A".
Proof.
  split; [vm_compute; discriminate|]. split; [vm_compute; discriminate|].
  apply get_features_reads_close_high_low; vm_compute; reflexivity.
Defined.

Lemma price_is_log_of_present_close_witness :
  sel Ref.late_listing "close" "A" !! 1 = Some (Fin 5) /\
  cell_at (get_features Ref.ta Ref.late_listing) 1 "price" "A" = Some (LogOf 5).
Proof.
  split; [reflexivity|].
  apply (price_is_log_of_present_close Ref.ta Ref.late_listing 1 "A" (Fin 5));
    reflexivity.
Defined.

Lemma price_before_first_close_witness :
  sel Ref.listed_on_day_2 "close" "A" = [NaN; NaN; Fin 8; Fin 9] /\
  cell_at (get_features Ref.ta Ref.listed_on_day_2) 0 "price" "A" = Some (LogOf 8).
Proof.
  assert (Hclose : sel Ref.listed_on_day_2 "close" "A" = [NaN; NaN; Fin 8; Fin 9])
    by reflexivity.
  split; [exact Hclose|].
  apply (price_before_first_close Ref.ta Ref.listed_on_day_2 2 "A" (Fin 8));
    [reflexivity|reflexivity| |lia].
  intros t y Ht. rewrite Hclose.
  destruct t as [|[|t]]; [intros [= <-]; reflexivity..|lia].
Defined.

Lemma price_of_missing_close_witness :
  sel Ref.never_listed "close" "A" = [NaN; NaN; NaN; NaN] /\
  cell_at (get_features Ref.ta Ref.never_listed) 3 "price" "A" = Some (Num NegInf).
Proof.
  assert (Hclose : sel Ref.never_listed "close" "A" = [NaN; NaN; NaN; NaN])
    by reflexivity.
  split; [exact Hclose|].
  apply (price_of_missing_close Ref.ta Ref.never_listed "A");
    [|vm_compute; lia].
  intros t y. rewrite Hclose.
  destruct t as [|[|[|[|t]]]]; [intros [= <-]; reflexivity..|discriminate].
Defined.

Lemma price_never_missing_witness :
  exists c, cell_at (get_features Ref.ta Ref.five_closes) 4 "price" "A" = Some c /\
            isnull c = false.
Proof.
  apply (price_never_missing Ref.ta Ref.five_closes "A"); [|vm_compute; lia].
  intros y Hy.
  change (sel Ref.five_closes "close" "A")
    with (Ref.prices [10; 12; 11; 11; 13]%Z) in Hy.
  unfold Ref.prices in Hy. simpl in Hy.
  repeat (apply elem_of_cons in Hy as [->|Hy];
          [split; [discriminate|intros q [= <-]; unfold Qle; simpl; lia]|]).
  by apply elem_of_nil in Hy.
Defined.

Lemma train_model_models_are_fitted_witness :
  exists models l' m,
    train_model Ref.ta Ref.quiet Ref.five_assets [] = (Ret models, l') /\
    models !! "A" = Some m /\
    n_neighbors m = 5 /\ 10 <= length (fit_X m) /\
    length (fit_y m) = length (fit_X m).
Proof.
  pose proof (train_model_eq Ref.ta Ref.quiet Ref.five_assets []) as Hrun.
  destruct (foldl (train_step Ref.ta Ref.quiet Ref.five_assets) ∅
              (asset_coords Ref.five_assets) !! "A") as [m|] eqn:Hm;
    [|vm_compute in Hm; discriminate Hm].
  destruct (train_model_models_are_fitted _ _ _ _ _ _ _ _ Hrun Hm)
    as (_ & Hk & Hrows & Hlen & _).
  eexists _, _, m. split; [exact Hrun|]. split; [exact Hm|]. by repeat split.
Defined.

Lemma global_training_agrees_with_train_model_witness :
  fst (global_training Ref.ta (Ref.fit_fails "C" (Exception "forced failure"))
         Ref.five_assets []) =
  fst (train_model Ref.ta (Ref.fit_fails "C" (Exception "forced failure"))
         Ref.five_assets []) /\
  map snd (snd (global_training Ref.ta
                  (Ref.fit_fails "C" (Exception "forced failure"))
                  Ref.five_assets [])) =
  map snd (snd (train_model Ref.ta
                  (Ref.fit_fails "C" (Exception "forced failure"))
                  Ref.five_assets [])).
Proof.
  apply global_training_agrees_with_train_model.
  intros a _. unfold Ref.fit_fails. cbn [fit_raises].
  destruct (String.eqb "C" a); discriminate.
Defined.

Lemma global_training_propagates_interrupts_witness :
  fst (global_training Ref.ta (Ref.fit_fails "C" KeyboardInterrupt)
         Ref.five_assets [])
  = Raise KeyboardInterrupt.
Proof.
  apply (global_training_propagates_interrupts _ _ _ "C").
  - repeat constructor.
  - vm_compute. lia.
  - reflexivity.
Defined.

Lemma predict_weights_raises_only_interrupts_witness :
  fst (predict_weights Ref.ta (Ref.predict_fails "D" KeyboardInterrupt)
         Ref.four_models Ref.five_assets [])
  = Raise KeyboardInterrupt.
Proof.
  destruct (fst (predict_weights Ref.ta (Ref.predict_fails "D" KeyboardInterrupt)
                   Ref.four_models Ref.five_assets [])) as [weights|e] eqn:Hrun;
    [vm_compute in Hrun; discriminate Hrun|].
  f_equal. exact (predict_weights_raises_only_interrupts _ _ _ _ _ _ Hrun).
Defined.

Lemma four_models_D :
  Ref.four_models !! "D" =
  Some (mkKNN 5 (feature_for_learn Ref.ta Ref.five_assets "D")
                (target_for_learn Ref.ta Ref.five_assets "D")).
Proof. vm_compute. reflexivity. Qed.

Lemma five_assets_D_rows : features_cur Ref.ta Ref.five_assets "D" <> [].
Proof. vm_compute. discriminate. Qed.

Lemma five_assets_D_coord : "D" ∈ asset_coords Ref.five_assets.
Proof. repeat constructor. Qed.

Lemma predict_weights_propagates_interrupts_witness :
  fst (predict_weights Ref.ta (Ref.predict_fails "D" KeyboardInterrupt)
         Ref.four_models Ref.five_assets [])
  = Raise KeyboardInterrupt.
Proof.
  exact (predict_weights_propagates_interrupts Ref.ta
           (Ref.predict_fails "D" KeyboardInterrupt) Ref.four_models
           Ref.five_assets "D" _ [] five_assets_D_coord four_models_D
           five_assets_D_rows eq_refl).
Defined.

Lemma predict_weights_failure_leaves_zero_witness :
  exists weights l',
    predict_weights Ref.ta (Ref.predict_fails "D" (Exception "forced failure"))
      Ref.four_models Ref.five_assets [] = (Ret weights, l') /\
    In ("model prediction failed", Exception "forced failure") l' /\
    entry weights 65 "D" = Some (Fin 0).
Proof.
  destruct (predict_weights Ref.ta
              (Ref.predict_fails "D" (Exception "forced failure"))
              Ref.four_models Ref.five_assets [])
    as [[weights|e] l'] eqn:Hrun; [|vm_compute in Hrun; discriminate Hrun].
  destruct (predict_weights_failure_leaves_zero _ _ _ _ "D" _ "forced failure"
              _ _ _ Hrun five_assets_D_coord four_models_D five_assets_D_rows
              eq_refl) as [Hlog Hzero].
  exists weights, l'. split; [reflexivity|]. split; [exact Hlog|].
  apply Hzero. vm_compute. lia.
Defined.

Lemma predict_weights_holds_predictions_witness :
  exists weights l' ys,
    predict_weights Ref.ta Ref.quiet Ref.four_models Ref.five_assets [] =
      (Ret weights, l') /\
    predict Ref.quiet "D" (mkKNN 5 (feature_for_learn Ref.ta Ref.five_assets "D")
                                   (target_for_learn Ref.ta Ref.five_assets "D"))
      (values (features_cur Ref.ta Ref.five_assets "D")) [] = (Ret ys, []) /\
    time_values (features_cur Ref.ta Ref.five_assets "D") !! 2 = Some 62 /\
    entry weights 62 "D" = ys !! 2.
Proof.
  destruct (predict_weights Ref.ta Ref.quiet Ref.four_models Ref.five_assets [])
    as [[weights|e] l'] eqn:Hrun; [|vm_compute in Hrun; discriminate Hrun].
  destruct (predict Ref.quiet "D"
              (mkKNN 5 (feature_for_learn Ref.ta Ref.five_assets "D")
                       (target_for_learn Ref.ta Ref.five_assets "D"))
              (values (features_cur Ref.ta Ref.five_assets "D")) [])
    as [[ys|e] lp] eqn:Hp; [|vm_compute in Hp; discriminate Hp].
  pose proof (predict_log _ _ _ _ _ _ _ Hp) as ->.
  assert (Htime : time_values (features_cur Ref.ta Ref.five_assets "D") !! 2 = Some 62)
    by (vm_compute; reflexivity).
  exists weights, l', ys. split; [reflexivity|]. split; [reflexivity|].
  split; [exact Htime|].
  exact (predict_weights_holds_predictions _ _ _ _ "D" _ ys _ _ _ Hrun
           five_assets_D_coord four_models_D Hp 2 62 Htime).
Defined.

Lemma predict_weights_in_fifths_witness :
  exists models l1 weights l3,
    train_model Ref.ta Ref.quiet Ref.five_assets [] = (Ret models, l1) /\
    predict_weights Ref.ta Ref.quiet models Ref.five_assets [] = (Ret weights, l3) /\
    forall t v, entry weights t "B" = Some v -> v ∈ fifths.
Proof.
  pose proof (train_model_eq Ref.ta Ref.quiet Ref.five_assets []) as Htrain.
  destruct (predict_weights Ref.ta Ref.quiet
              (foldl (train_step Ref.ta Ref.quiet Ref.five_assets) ∅
                 (asset_coords Ref.five_assets))
              Ref.five_assets [])
    as [[weights|e] l3] eqn:Hrun; [|vm_compute in Hrun; discriminate Hrun].
  eexists _, _, weights, l3. split; [exact Htrain|]. split; [exact Hrun|].
  intros t v. exact (predict_weights_in_fifths _ _ _ _ _ _ _ _ _ _ _
                       ref_kneighbors_count Htrain Hrun "B" t v).
Defined.

Lemma ref_predict_quiet : predict_quiet Ref.quiet.
Proof. by intros a m X. Qed.

Lemma ref_kneighbors_in_range : kneighbors_in_range Ref.quiet.
Proof.
  intros X x k Hk. apply Forall_forall. intros i Hi%list_elem_of_In%in_seq.
  simpl in Hi. lia.
Qed.

Lemma predict_weights_after_train_model_succeeds_witness :
  predict_quiet Ref.quiet /\ kneighbors_in_range Ref.quiet /\
  exists weights,
    predict_weights Ref.ta Ref.quiet
      (foldl (train_step Ref.ta Ref.quiet Ref.five_assets) ∅
         (asset_coords Ref.five_assets))
      (truncate Ref.five_assets 64) [] = (Ret weights, []).
Proof.
  split; [exact ref_predict_quiet|]. split; [exact ref_kneighbors_in_range|].
  exact (predict_weights_after_train_model_succeeds _ _ _ _ _ _ _ _ _
           (train_model_eq Ref.ta Ref.quiet Ref.five_assets [])
           ref_predict_quiet ref_kneighbors_in_range).
Defined.
